(** * gitlab issue tool: a shallow embedding and its checked properties

    The repository holds two revisions of one command-line program that
    creates a GitLab issue from a template:

    - the later revision (labels, milestones, a named draft file that is kept
      when something fails), embedded at the top level of this file;
    - the earlier revision [main.go] (the draft file is removed by a deferred
      call), embedded in [Module MainGo] where it differs.

    The collaborators of the program (operating system, editor process, git
    configuration, GitLab REST API, fuzzy finder, base64 decoder) are not part
    of the repository.  Their answers are collected in a record [World]; the
    draft file lives in an explicit file-system state that is threaded through
    the code, next to a trace of the calls that have an effect outside the
    process.  The collaborators of the first lines of [main], which locate
    the repository and the project, are collected in a record [Locating]. *)

From Stdlib Require Import ZArith Ascii String List Lia Bool.
From stdpp Require Import base option list strings gmap.

Local Open Scope string_scope.
Local Open Scope list_scope.
Local Open Scope Z_scope.

(** ** Go strings and byte slices *)

(** A Go [string] is a sequence of bytes, as is [String.string] here; a
    [[]byte] is a list of the same bytes, and the two conversions copy. *)
Definition bytes : Type := list ascii.

Definition string_of_bytes (b : bytes) : string := string_of_list_ascii b.
Definition bytes_of_string (s : string) : bytes := list_ascii_of_string s.

Module strings.

(** [s[i:]] for [i <= len(s)]. *)
Fixpoint drop (i : nat) (s : string) : string :=
  match i, s with
  | O, _ => s
  | S _, EmptyString => EmptyString
  | S i', String _ s' => drop i' s'
  end.

(** [s[:i]] for [i <= len(s)]. *)
Fixpoint take (i : nat) (s : string) : string :=
  match i, s with
  | O, _ => EmptyString
  | S _, EmptyString => EmptyString
  | S i', String c s' => String c (take i' s')
  end.

(** [strings.HasSuffix]:
    [len(s) >= len(suffix) && s[len(s)-len(suffix):] == suffix]. *)
Definition HasSuffix (s suffix : string) : bool :=
  (String.length suffix <=? String.length s)%nat
  && String.eqb (drop (String.length s - String.length suffix) s) suffix.

(** [strings.TrimSuffix]: one occurrence of the suffix is cut, if present. *)
Definition TrimSuffix (s suffix : string) : string :=
  if HasSuffix s suffix
  then take (String.length s - String.length suffix) s
  else s.

(** [strings.Index]: the byte offset of the first occurrence of [sep]. *)
Fixpoint Index (s sep : string) : option nat :=
  if String.prefix sep s then Some O
  else match s with
       | EmptyString => None
       | String _ s' => S <$> Index s' sep
       end.

(** The loop of [genSplit] for a non-empty separator, with [n] the number
    of pieces still allowed: the last allowed piece is the unsplit rest. *)
Fixpoint genSplit (n : nat) (s sep : string) : list string :=
  match n with
  | O => []
  | S O => [s]
  | S n' =>
      match Index s sep with
      | None => [s]
      | Some m => take m s :: genSplit n' (drop (m + String.length sep) s) sep
      end
  end.

(** [strings.SplitN(s, sep, n)] for [n >= 0] and a non-empty [sep] (both
    call sites pass a one-byte separator). *)
Definition SplitN (s sep : string) (n : nat) : list string := genSplit n s sep.

(** [strings.Split(s, sep)] is [SplitN(s, sep, -1)]: the piece count is
    [Count(s, sep) + 1], which is at most [len(s) + 1]. *)
Definition Split (s sep : string) : list string :=
  genSplit (S (String.length s)) s sep.

End strings.

(** The line feed, as a byte and as a one-byte string. *)
Definition LF : ascii := "010"%char.
Definition nl : string := String LF "".

(** ** Errors and results *)

(** A Go [error] value: either one produced by a collaborator, or one built
    by [fmt.Errorf] from a format and its operands, in order.  The operand of
    a [%w] verb is the wrapped error. *)
Inductive error : Type :=
| ErrExt (msg : string)
| Errorf (format : string) (operands : list operand)
with operand : Type :=
| OStr (s : string)
| OErr (e : error).

(** The [(T, error)] result of a library call whose value is not looked at
    when the error is set. *)
Inductive result (A : Type) : Type :=
| Ok (a : A)
| Err (e : error).
Arguments Ok {A} a.
Arguments Err {A} e.

(** ** Data model *)

(** *** Values of the GitLab client library that the program reads *)

Record Project := {
  Project_ID : Z;
  Project_Name : string;
  Project_DefaultBranch : string
}.

Record Label := {
  Label_ID : Z;
  Label_Name : string;
  Label_Description : string
}.

Record Milestone := {
  Milestone_ID : Z;
  Milestone_Title : string
}.

Record TreeNode := { TreeNode_Path : string }.

Record File := {
  File_FileName : string;
  File_Content : string
}.

Record Issue := {
  Issue_IID : Z;
  Issue_WebURL : string
}.

(** [gitlab.UpdateIssueOptions], the two fields the program sets.
    [MilestoneID] is a pointer: [None] is nil, the field is then not sent. *)
Record UpdateIssueOptions := {
  AddLabels : list string;
  MilestoneID : option Z
}.

(** *** The program's own types *)

Record issueLabel := {
  label_ID : Z;
  label_Name : string;
  label_Description : string
}.

Definition noLabels : list issueLabel :=
  [ {| label_ID := 0; label_Name := "non-existant"; label_Description := "" |} ].

Record issueMilestone := {
  milestone_ID : Z;
  milestone_Name : string
}.

Definition noMilestone : issueMilestone :=
  {| milestone_ID := 0; milestone_Name := "non-existant" |}.

Record issueTemplate := {
  template_Name : string;
  template_Content : bytes
}.

(** ** Collaborators *)

(** go-git: the raw configuration, through the three methods the program
    calls on it. *)
Record Section_ := {
  HasOption : string -> bool;
  Option_ : string -> string
}.

Record RawConfig := {
  HasSection : string -> bool;
  Section : string -> Section_
}.

Record Config := { Raw : RawConfig }.

Inductive Scope := LocalScope | GlobalScope | SystemScope.

(** go-git: an opened repository, through the one method the program calls. *)
Record Repository := { ConfigScoped : Scope -> result Config }.

(** go-gitlab: the client, through the services the program calls.  The
    arguments are the project id followed by the option fields that are set. *)
Record Client := {
  ListLabels : Z -> result (list Label);
  ListMilestones : Z -> string -> result (list Milestone);
  ListTree : Z -> string -> string -> result (list TreeNode);
  GetFile : Z -> string -> string -> result File;
  CreateIssue : Z -> string -> string -> option Issue * option error;
  UpdateIssue : Z -> Z -> UpdateIssueOptions -> option error
}.

Record gitlabClient := { gitlab : Client }.

(** The files the process can see. *)
Abbreviation fs := (gmap string bytes).

(** Operating system, standard library and user.  A [_fault] field is an I/O
    error injected into a call that would otherwise act on the file state. *)
Record World := {
  Getenv : string -> string;
  homedir_Dir : result string;
  filepath_Join : list string -> string;
  MkdirAll : string -> option error;
  (** [ioutil.ReadDir]: the entries' names and the error, both as returned. *)
  ReadDir : string -> list string * option error;
  ReadFile_fault : string -> option error;
  (** [ioutil.TempFile dir pattern]: the name of the file it creates. *)
  TempFile : string -> string -> result string;
  Write_fault : string -> option error;
  Sync : string -> option error;
  (** [exec.Cmd.Run] of the editor: what the process does to the files, and
      its exit status. *)
  Run : list string -> fs -> fs * option error;
  Remove_fault : string -> option error;
  (** [base64.StdEncoding.DecodeString] *)
  DecodeString : string -> result bytes;
  (** The user's answers at the three prompts of the fuzzy finder, given the
      displayed lines: the index (or indexes) and the error, as returned. *)
  Find_template : list string -> Z * option error;
  Find_milestone : list string -> Z * option error;
  FindMulti_label : list string -> list Z * option error
}.

(** ** State *)

(** Calls with an effect outside the process, and log lines. *)
Inductive event : Type :=
| EvExec (argv : list string)
| EvCreateIssue (pid : Z) (title description : string)
| EvUpdateIssue (pid iid : Z) (options : UpdateIssueOptions)
| EvRemove (name : string)
| EvLog (format : string) (operands : list operand).

Record St := {
  files : fs;
  trace : list event
}.

Definition set_files (f : fs) (st : St) : St :=
  {| files := f; trace := trace st |}.

Definition emit (e : event) (st : St) : St :=
  {| files := files st; trace := trace st ++ [e] |}.

(** [ioutil.TempFile]: the file is created empty. *)
Definition ioutil_TempFile (w : World) (dir pattern : string) (st : St)
  : result string * St :=
  match TempFile w dir pattern with
  | Err e => (Err e, st)
  | Ok name => (Ok name, set_files (<[name := []]> (files st)) st)
  end.

(** [File.Write] on the file just created: the buffer becomes its
    content.  A failed write is taken to leave the file as it was. *)
Definition File_Write (w : World) (name : string) (b : bytes) (st : St)
  : option error * St :=
  match Write_fault w name with
  | Some e => (Some e, st)
  | None => (None, set_files (<[name := b]> (files st)) st)
  end.

(** [ioutil.ReadFile] *)
Definition ioutil_ReadFile (w : World) (name : string) (st : St) : result bytes :=
  match ReadFile_fault w name with
  | Some e => Err e
  | None =>
      match files st !! name with
      | Some b => Ok b
      | None => Err (ErrExt ("open " +:+ name +:+ ": no such file or directory"))
      end
  end.

(** [os.Remove]: a failed removal leaves the file in place. *)
Definition os_Remove (w : World) (name : string) (st : St) : option error * St :=
  let st := emit (EvRemove name) st in
  match Remove_fault w name with
  | Some e => (Some e, st)
  | None =>
      match files st !! name with
      | Some _ => (None, set_files (delete name (files st)) st)
      | None => (Some (ErrExt ("remove " +:+ name +:+ ": no such file or directory")), st)
      end
  end.

(** [exec.Command(argv[0], argv[1:]...).Run()] *)
Definition cmd_Run (w : World) (argv : list string) (st : St) : option error * St :=
  let st := emit (EvExec argv) st in
  let '(f, err) := Run w argv (files st) in
  (err, set_files f st).

Definition Issues_CreateIssue (c : gitlabClient) (pid : Z) (title description : string)
    (st : St) : (option Issue * option error) * St :=
  (CreateIssue (gitlab c) pid title description,
   emit (EvCreateIssue pid title description) st).

Definition Issues_UpdateIssue (c : gitlabClient) (pid iid : Z)
    (options : UpdateIssueOptions) (st : St) : option error * St :=
  (UpdateIssue (gitlab c) pid iid options, emit (EvUpdateIssue pid iid options) st).

(** ** The program (later revision) *)

Definition getIssueLabels (c : gitlabClient) (project : Project)
  : list issueLabel * option error :=
  let l := [] in
  match ListLabels (gitlab c) (Project_ID project) with
  | Err err => (l, Some err)
  | Ok labels =>
      (fold_left
         (fun l label =>
            l ++ [ {| label_ID := Label_ID label;
                      label_Name := Label_Name label;
                      label_Description := Label_Description label |} ])
         labels l,
       None)
  end.

Definition getIssueMilestones (c : gitlabClient) (project : Project)
  : list issueMilestone * option error :=
  let m := [] in
  match ListMilestones (gitlab c) (Project_ID project) "active" with
  | Err err => (m, Some err)
  | Ok milestones =>
      (fold_left
         (fun m milestone =>
            m ++ [ {| milestone_ID := Milestone_ID milestone;
                      milestone_Name := Milestone_Title milestone |} ])
         milestones m,
       None)
  end.

(** The [for _, file := range files] loop of [getLocalIssueTemplates]. *)
Fixpoint localTemplatesLoop (w : World) (st : St) (localTemplateDir : string)
    (files_ : list string) (issueTemplates : list issueTemplate)
  : list issueTemplate * option error :=
  match files_ with
  | [] => (issueTemplates, None)
  | file :: rest =>
      if negb (strings.HasSuffix file ".md")
      then localTemplatesLoop w st localTemplateDir rest issueTemplates
      else
        match ioutil_ReadFile w (filepath_Join w [localTemplateDir; file]) st with
        | Err err =>
            (issueTemplates,
             Some (Errorf "could not read file %s: %w" [OStr file; OErr err]))
        | Ok b =>
            localTemplatesLoop w st localTemplateDir rest
              (issueTemplates ++
               [ {| template_Name := strings.TrimSuffix file ".md" +:+ " [local]";
                    template_Content := b |} ])
        end
  end.

(** The error of [ioutil.ReadDir] is assigned and not looked at again: the
    loop runs over whatever list came back with it. *)
Definition getLocalIssueTemplates (w : World) (st : St)
  : list issueTemplate * option error :=
  let issueTemplates := [] in
  match homedir_Dir w with
  | Err err =>
      (issueTemplates, Some (Errorf "could not get home-dir: %w" [OErr err]))
  | Ok home =>
      let localTemplateDir :=
        filepath_Join w [home; ".config"; "gitlab"; "issue_templates"] in
      match MkdirAll w localTemplateDir with
      | Some err =>
          (issueTemplates,
           Some (Errorf "couuld not make dir %q: %w" [OStr localTemplateDir; OErr err]))
      | None =>
          let '(files_, _) := ReadDir w localTemplateDir in
          localTemplatesLoop w st localTemplateDir files_ issueTemplates
      end
  end.

(** The [for _, node := range nodes] loop of [getIssueTemplates]. *)
Fixpoint remoteTemplatesLoop (w : World) (c : gitlabClient) (project : Project)
    (nodes : list TreeNode) (issueTemplates : list issueTemplate)
  : list issueTemplate * option error :=
  match nodes with
  | [] => (issueTemplates, None)
  | node :: rest =>
      if negb (strings.HasSuffix (TreeNode_Path node) ".md")
      then remoteTemplatesLoop w c project rest issueTemplates
      else
        match GetFile (gitlab c) (Project_ID project) (TreeNode_Path node)
                (Project_DefaultBranch project) with
        | Err err =>
            (issueTemplates,
             Some (Errorf "error fetching file %s from issue_templates: %w"
                     [OStr (TreeNode_Path node); OErr err]))
        | Ok file =>
            match DecodeString w (File_Content file) with
            | Err err =>
                (issueTemplates,
                 Some (Errorf "error decoding file %s from issue_templates: %w"
                         [OStr (TreeNode_Path node); OErr err]))
            | Ok content =>
                remoteTemplatesLoop w c project rest
                  (issueTemplates ++
                   [ {| template_Name := strings.TrimSuffix (File_FileName file) ".md";
                        template_Content := content |} ])
            end
        end
  end.

Definition BLANK : issueTemplate :=
  {| template_Name := "BLANK"; template_Content := [] |}.

Definition getIssueTemplates (w : World) (c : gitlabClient) (project : Project)
    (st : St) : list issueTemplate * option error :=
  let issueTemplates := [BLANK] in
  match getLocalIssueTemplates w st with
  | (_, Some err) =>
      (issueTemplates,
       Some (Errorf "could not get local issue templates: %w" [OErr err]))
  | (localIssueTemplates, None) =>
      let issueTemplates := issueTemplates ++ localIssueTemplates in
      match ListTree (gitlab c) (Project_ID project)
              (Project_DefaultBranch project) ".gitlab/issue_templates" with
      | Err err =>
          (issueTemplates,
           Some (Errorf "error fetching files from issue_templates: %w" [OErr err]))
      | Ok nodes => remoteTemplatesLoop w c project nodes issueTemplates
      end
  end.

Definition getEditor (w : World) (repository : Repository) : string * option error :=
  let gitEditor := Getenv w "GIT_EDITOR" in
  if negb (String.eqb gitEditor "") then (gitEditor, None)
  else
    match ConfigScoped repository GlobalScope with
    | Err err => ("", Some (Errorf "could not get git config: %w" [OErr err]))
    | Ok cfg =>
        if HasSection (Raw cfg) "core"
           && HasOption (Section (Raw cfg) "core") "editor"
        then (Option_ (Section (Raw cfg) "core") "editor", None)
        else
          let gitEditor := Getenv w "VISUAL" in
          if negb (String.eqb gitEditor "") then (gitEditor, None)
          else
            let gitEditor := Getenv w "EDITOR" in
            if negb (String.eqb gitEditor "") then (gitEditor, None)
            else ("vi", None)
    end.

(** [&gitlab.Issue{}] *)
Definition emptyIssue : Issue := {| Issue_IID := 0; Issue_WebURL := "" |}.

(** The bytes written to the draft file: two line feeds, then the template. *)
Definition prepopulated (template : issueTemplate) : bytes :=
  [LF] ++ [LF] ++ template_Content template.

Definition createIssueFromTemplate (w : World) (c : gitlabClient)
    (repository : Repository) (project : Project) (template : issueTemplate)
    (st : St) : (option Issue * option error) * St :=
  let issue := Some emptyIssue in
  match ioutil_TempFile w ""
          ("*_" +:+ Project_Name project +:+ "_" +:+ template_Name template
           +:+ "_pre-submit.md") st with
  | (Err err, st) =>
      ((issue,
        Some (Errorf "could not create temporary issue-description file: %w" [OErr err])),
       st)
  | (Ok file, st) =>
      let buf := prepopulated template in
      match File_Write w file buf st with
      | (Some err, st) =>
          ((issue, Some (Errorf "could not prepopulate template: %w" [OErr err])), st)
      | (None, st) =>
          match Sync w file with
          | Some err =>
              ((issue, Some (Errorf "could not sync file to disk: %w" [OErr err])), st)
          | None =>
              match getEditor w repository with
              | (_, Some err) =>
                  ((issue, Some (Errorf "could not get editor: %w" [OErr err])), st)
              | (editor, None) =>
                  let editorCommand := strings.Split editor " " in
                  let editorCommand := editorCommand ++ [file] in
                  match cmd_Run w editorCommand st with
                  | (Some err, st) =>
                      ((issue, Some (Errorf "error running editor: %w" [OErr err])), st)
                  | (None, st) =>
                      match ioutil_ReadFile w file st with
                      | Err err =>
                          ((issue,
                            Some (Errorf "could not read file: %w (%s)"
                                    [OErr err; OStr file])),
                           st)
                      | Ok issueContent =>
                          if decide (issueContent = buf)
                          then
                            ((issue,
                              Some (Errorf "content of issue has not been changed" [])),
                             st)
                          else
                            let issueSplit :=
                              strings.SplitN (string_of_bytes issueContent) nl 2 in
                            match issueSplit with
                            | [] => ((issue, Some (Errorf "empty issue content" [])), st)
                            | title :: _ =>
                                if (String.length title =? 0)%nat
                                then
                                  ((issue,
                                    Some (Errorf "empty issue title (%s)" [OStr file])),
                                   st)
                                else
                                  let issueSplit :=
                                    if (length issueSplit =? 1)%nat
                                    then issueSplit ++ [""] else issueSplit in
                                  match
                                    Issues_CreateIssue c (Project_ID project) title
                                      (nth 1 issueSplit "") st
                                  with
                                  | ((issue, Some err), st) =>
                                      ((issue,
                                        Some (Errorf "could not create gitlab issue: %w (%s)"
                                                [OErr err; OStr file])),
                                       st)
                                  | ((issue, None), st) =>
                                      (* remove file once sure of success *)
                                      let '(err, st) := os_Remove w file st in
                                      ((issue, err), st)
                                  end
                            end
                      end
                  end
              end
          end
      end
  end.

Definition setIssueLabelsMilestones (c : gitlabClient) (project : Project)
    (issue : Issue) (labels : list issueLabel) (milestone : issueMilestone)
    (st : St) : option error * St :=
  let labelNames :=
    fold_left
      (fun labelNames l =>
         if negb (label_ID l =? 0) then labelNames ++ [label_Name l] else labelNames)
      labels [] in
  let options := {| AddLabels := labelNames; MilestoneID := None |} in
  let options :=
    if negb (milestone_ID milestone =? 0)
    then {| AddLabels := AddLabels options;
            MilestoneID := Some (milestone_ID milestone) |}
    else options in
  Issues_UpdateIssue c (Project_ID project) (Issue_IID issue) options st.

(** *** [main] *)

(** How a step of [main] ends: it goes on with a value, or the process exits
    through [log.Fatalf], or it panics on an index out of range or a nil
    pointer. *)
Inductive exit (A : Type) : Type :=
| Continue (a : A)
| Fatalf (format : string) (operands : list operand)
| Panic.
Arguments Continue {A} a.
Arguments Fatalf {A} format operands.
Arguments Panic {A}.

Definition M (A : Type) : Type := St -> exit A * St.

Definition ret {A} (a : A) : M A := fun st => (Continue a, st).

Definition bind {A B} (k : A -> M B) (m : M A) : M B :=
  fun st =>
    match m st with
    | (Continue a, st') => k a st'
    | (Fatalf f ops, st') => (Fatalf f ops, st')
    | (Panic, st') => (Panic, st')
    end.

#[local] Instance M_ret : MRet M := @ret.
#[local] Instance M_bind : MBind M := @bind.

Definition log_Fatalf {A} (format : string) (operands : list operand) : M A :=
  fun st => (Fatalf format operands, st).

Definition log_Printf (format : string) (operands : list operand) : M unit :=
  fun st => (Continue tt, emit (EvLog format operands) st).

Definition log_Println (line : string) : M unit := log_Printf line [].

(** A function of the program that reads the state. *)
Definition reads {A} (f : St -> A) : M A := fun st => (Continue (f st), st).

(** A function of the program that changes the state. *)
Definition runs {A} (f : St -> A * St) : M A :=
  fun st => let '(a, st') := f st in (Continue a, st').

Definition when (b : bool) (m : M unit) : M unit := if b then m else ret tt.

(** [s[i]] with Go's bounds check. *)
Definition index {A} (s : list A) (i : Z) : M A :=
  fun st =>
    if i <? 0 then (Panic, st)
    else match s !! Z.to_nat i with
         | Some a => (Continue a, st)
         | None => (Panic, st)
         end.

(** [*p] for a pointer that may be nil. *)
Definition deref {A} (p : option A) : M A :=
  fun st => match p with Some a => (Continue a, st) | None => (Panic, st) end.

(** The [for _, idx := range labelIdxs] loop of [main]. *)
Fixpoint selectLabelsLoop (labels : list issueLabel) (labelIdxs : list Z)
    (selectedLabels : list issueLabel) : M (list issueLabel) :=
  match labelIdxs with
  | [] => ret selectedLabels
  | idx :: rest =>
      l ← index labels idx;
      selectLabelsLoop labels rest (selectedLabels ++ [l])
  end.

(** [main] from the template listing on (lines 301-370).  The lines before
    (267-300) locate the repository and the project, or end the process; they
    bind [repo], [client] and [project], which are arguments here. *)
Definition main (w : World) (client : gitlabClient) (repo : Repository)
    (project : Project) : M unit :=
  '(templates, err) ← reads (getIssueTemplates w client project);
  match err with
  | Some err => log_Fatalf "Failed to get issue templates for project: %s" [OErr err]
  | None =>
  when (length templates =? 0)%nat (log_Println "No issue templates present") ;;
  let '(idx, err) := Find_template w (template_Name <$> templates) in
  match err with
  | Some err => log_Fatalf "Failed to select template: %s" [OErr err]
  | None =>
  template ← index templates idx;
  log_Printf "Selected template: %s" [OStr (template_Name template)] ;;
  let '(labels, err) := getIssueLabels client project in
  match err with
  | Some err => log_Printf "Failed to get issue labels for project: %s" [OErr err]
  | None => ret tt
  end ;;
  when (length labels =? 0)%nat (log_Println "No issue labels present") ;;
  let '(milestones, err) := getIssueMilestones client project in
  match err with
  | Some err => log_Printf "Failed to get issue milestones for project: %s" [OErr err]
  | None => ret tt
  end ;;
  when (length milestones =? 0)%nat (log_Println "No issue milestones present") ;;
  '(issue, err) ← runs (createIssueFromTemplate w client repo project template);
  match err with
  | Some err => log_Fatalf "could not create issue: %s" [OErr err]
  | None =>
  issue ← deref issue;
  log_Printf "created: %s" [OStr (Issue_WebURL issue)] ;;
  selectedMilestone ←
    (if (0 <? length milestones)%nat
     then
       let '(milestoneIdx, _) := Find_milestone w (milestone_Name <$> milestones) in
       index milestones milestoneIdx
     else ret noMilestone);
  selectedLabels ←
    (if (0 <? length labels)%nat
     then
       let '(labelIdxs, err) :=
         FindMulti_label w
           ((fun l => label_Name l +:+ ": " +:+ label_Description l) <$> labels) in
       let selectedLabels := [] in
       let selectedLabels :=
         match err with Some _ => noLabels | None => selectedLabels end in
       selectLabelsLoop labels labelIdxs selectedLabels
     else ret noLabels);
  err ← runs (setIssueLabelsMilestones client project issue selectedLabels
                 selectedMilestone);
  match err with
  | Some err => log_Fatalf "could not add labels/milestones to issue: %s" [OErr err]
  | None => ret tt
  end
  end
  end
  end.

(** ** The program (earlier revision, [main.go]) *)

(** [main.go] has the same [getIssueLabels], [getIssueMilestones],
    [getLocalIssueTemplates] and [getEditor]; it has no
    [setIssueLabelsMilestones].  The functions below are the ones whose text
    differs. *)
Module MainGo.

(** The local templates are appended before the error is looked at. *)
Definition getIssueTemplates (w : World) (c : gitlabClient) (project : Project)
    (st : St) : list issueTemplate * option error :=
  let issueTemplates := [BLANK] in
  let '(localIssueTemplates, err) := getLocalIssueTemplates w st in
  let issueTemplates := issueTemplates ++ localIssueTemplates in
  match err with
  | Some err =>
      (issueTemplates,
       Some (Errorf "could not get local issue templates: %w" [OErr err]))
  | None =>
      match ListTree (gitlab c) (Project_ID project)
              (Project_DefaultBranch project) ".gitlab/issue_templates" with
      | Err err =>
          (issueTemplates,
           Some (Errorf "error fetching files from issue_templates: %w" [OErr err]))
      | Ok nodes => remoteTemplatesLoop w c project nodes issueTemplates
      end
  end.

(** [defer os.Remove(file.Name())] runs when the function returns, on every
    path after the file was created; its error is dropped and the results
    are the ones already set. *)
Definition createIssueFromTemplate (w : World) (c : gitlabClient)
    (repository : Repository) (project : Project) (template : issueTemplate)
    (st : St) : (option Issue * option error) * St :=
  let issue := Some emptyIssue in
  match ioutil_TempFile w "" "*pre-submit.md" st with
  | (Err err, st) =>
      ((issue,
        Some (Errorf "could not create temporary issue-description file: %w"
                [OErr err])),
       st)
  | (Ok file, st) =>
      let '(results, st) :=
        let buf := prepopulated template in
        match File_Write w file buf st with
        | (Some err, st) =>
            ((issue, Some (Errorf "could not prepopulate template: %w" [OErr err])), st)
        | (None, st) =>
            match Sync w file with
            | Some err =>
                ((issue, Some (Errorf "could not sync file to disk: %w" [OErr err])), st)
            | None =>
                match getEditor w repository with
                | (_, Some err) =>
                    ((issue, Some (Errorf "could not get editor: %w" [OErr err])), st)
                | (editor, None) =>
                    let editorCommand := strings.Split editor " " in
                    let editorCommand := editorCommand ++ [file] in
                    match cmd_Run w editorCommand st with
                    | (Some err, st) =>
                        ((issue, Some (Errorf "error running editor: %w" [OErr err])),
                         st)
                    | (None, st) =>
                        match ioutil_ReadFile w file st with
                        | Err err =>
                            ((issue, Some (Errorf "could not read file: %w" [OErr err])),
                             st)
                        | Ok issueContent =>
                            if decide (issueContent = buf)
                            then
                              ((issue,
                                Some (Errorf "content of issue has not been changed" [])),
                               st)
                            else
                              let issueSplit :=
                                strings.SplitN (string_of_bytes issueContent) nl 2 in
                              match issueSplit with
                              | [] =>
                                  ((issue, Some (Errorf "empty issue content" [])), st)
                              | title :: _ =>
                                  if (String.length title =? 0)%nat
                                  then
                                    ((issue, Some (Errorf "empty issue title" [])), st)
                                  else
                                    let issueSplit :=
                                      if (length issueSplit =? 1)%nat
                                      then issueSplit ++ [""] else issueSplit in
                                    match
                                      Issues_CreateIssue c (Project_ID project) title
                                        (nth 1 issueSplit "") st
                                    with
                                    | ((issue, Some err), st) =>
                                        ((issue,
                                          Some (Errorf "could not create gitlab issue: %w"
                                                  [OErr err])),
                                         st)
                                    | ((issue, None), st) => ((issue, None), st)
                                    end
                              end
                        end
                    end
                end
            end
        end in
      let '(_, st) := os_Remove w file st in
      (results, st)
  end.

(** [main] of [main.go] from the template listing on (lines 282-325). *)
Definition main (w : World) (client : gitlabClient) (repo : Repository)
    (project : Project) : M unit :=
  '(templates, err) ← reads (getIssueTemplates w client project);
  match err with
  | Some err => log_Fatalf "Failed to get issue templates for project: %s" [OErr err]
  | None =>
  when (length templates =? 0)%nat (log_Println "No issue templates present") ;;
  let '(idx, err) := Find_template w (template_Name <$> templates) in
  match err with
  | Some err => log_Fatalf "Failed to select template: %s" [OErr err]
  | None =>
  template ← index templates idx;
  log_Printf "Selected template: %s" [OStr (template_Name template)] ;;
  '(issue, err) ← runs (createIssueFromTemplate w client repo project template);
  match err with
  | Some err => log_Fatalf "could not create issue: %s" [OErr err]
  | None =>
  issue ← deref issue;
  log_Printf "created: %s" [OStr (Issue_WebURL issue)]
  end
  end
  end.

End MainGo.


(** ** Notions used in the statements *)

(** The issue-creation calls in a trace, in order. *)
Definition createCalls (tr : list event) : list (Z * string * string) :=
  omap (fun e => match e with
                 | EvCreateIssue pid title description => Some (pid, title, description)
                 | _ => None
                 end) tr.

(** The issue-update calls in a trace, in order. *)
Definition updateCalls (tr : list event) : list (Z * Z * UpdateIssueOptions) :=
  omap (fun e => match e with
                 | EvUpdateIssue pid iid options => Some (pid, iid, options)
                 | _ => None
                 end) tr.

(** The command lines run, in order. *)
Definition execCalls (tr : list event) : list (list string) :=
  omap (fun e => match e with EvExec argv => Some argv | _ => None end) tr.

(** The byte does not occur in the string. *)
Definition without (c : ascii) (s : string) : Prop := c ∉ list_ascii_of_string s.

(** The removals in a trace, in order. *)
Definition removeCalls (tr : list event) : list string :=
  omap (fun e => match e with EvRemove name => Some name | _ => None end) tr.

(** The name pattern of the draft file in the later revision. *)
Definition draftPattern (project : Project) (template : issueTemplate) : string :=
  "*_" +:+ Project_Name project +:+ "_" +:+ template_Name template
  +:+ "_pre-submit.md".

(** The files as the editor finds them: the draft holds the prepopulated
    bytes. *)
Definition draftFiles (f : fs) (file : string) (template : issueTemplate) : fs :=
  <[file := prepopulated template]> (<[file := []]> f).

(** An editing session that went through: starting from the files [f], the
    draft [file] was created, written and synced, the editor was resolved and
    run as [argv] without error, it left the files [f'], and the draft was
    read back as [issueContent]. *)
Definition edited (w : World) (repository : Repository) (pattern : string)
    (template : issueTemplate) (f : fs) (file : string) (argv : list string)
    (issueContent : bytes) (f' : fs) : Prop :=
  TempFile w "" pattern = Ok file /\
  Write_fault w file = None /\
  Sync w file = None /\
  (exists editor,
     getEditor w repository = (editor, None) /\
     argv = strings.Split editor " " ++ [file]) /\
  Run w argv (draftFiles f file template) = (f', None) /\
  ReadFile_fault w file = None /\
  f' !! file = Some issueContent.

(** The state in which the edited draft is examined. *)
Definition afterEdit (st : St) (argv : list string) (f' : fs) : St :=
  {| files := f'; trace := trace st ++ [EvExec argv] |}.

(** The string has no line feed. *)
Definition oneLine (s : string) : Prop := LF ∉ list_ascii_of_string s.

(** The template listing went through and the user picked [template]. *)
Definition selects (w : World) (client : gitlabClient) (project : Project)
    (st : St) (template : issueTemplate) : Prop :=
  exists templates idx,
    getIssueTemplates w client project st = (templates, None) /\
    Find_template w (template_Name <$> templates) = (idx, None) /\
    0 <= idx /\
    templates !! Z.to_nat idx = Some template.

(** *** Editor precedence, in the words of the specification *)

(** An environment variable counts as set when it is not empty. *)
Definition envSet (w : World) (name : string) : option string :=
  if String.eqb (Getenv w name) "" then None else Some (Getenv w name).

(** The [editor] option of the [core] section of a configuration, if it has
    one. *)
Definition coreEditor (cfg : Config) : option string :=
  if HasSection (Raw cfg) "core" && HasOption (Section (Raw cfg) "core") "editor"
  then Some (Option_ (Section (Raw cfg) "core") "editor")
  else None.


(** *** The merged template list, in the words of the specification *)

Definition isMarkdown (name : string) : Prop := strings.HasSuffix name ".md" = true.

#[global] Instance isMarkdown_dec name : Decision (isMarkdown name).
Proof. unfold isMarkdown. apply _. Defined.

(** The directory of the local templates under the home directory. *)
Definition templateDir (w : World) (home : string) : string :=
  filepath_Join w [home; ".config"; "gitlab"; "issue_templates"].

(** The local template made from the directory entry [name]: its name is the
    file name without the extension, followed by [" [local]"]; its content is
    the content of the file. *)
Definition localTemplate (w : World) (st : St) (dir name : string) : issueTemplate :=
  {| template_Name := strings.TrimSuffix name ".md" +:+ " [local]";
     template_Content :=
       match ioutil_ReadFile w (filepath_Join w [dir; name]) st with
       | Ok b => b
       | Err _ => []
       end |}.

(** The remote template made from the tree entry [node]: its name is the
    name of the fetched file without the extension; its content is the
    decoded content of that file. *)
Definition remoteTemplate (w : World) (c : gitlabClient) (project : Project)
    (node : TreeNode) : issueTemplate :=
  match GetFile (gitlab c) (Project_ID project) (TreeNode_Path node)
          (Project_DefaultBranch project) with
  | Ok file =>
      {| template_Name := strings.TrimSuffix (File_FileName file) ".md";
         template_Content :=
           match DecodeString w (File_Content file) with
           | Ok content => content
           | Err _ => []
           end |}
  | Err _ => BLANK
  end.

(** A remote entry that can be fetched and decoded. *)
Definition fetchable (w : World) (c : gitlabClient) (project : Project)
    (node : TreeNode) : Prop :=
  exists file content,
    GetFile (gitlab c) (Project_ID project) (TreeNode_Path node)
      (Project_DefaultBranch project) = Ok file /\
    DecodeString w (File_Content file) = Ok content.

(** Blank first, then the local [.md] entries in the order of the listing,
    then the remote [.md] entries in the order of the tree. *)
Definition mergedTemplates (w : World) (c : gitlabClient) (project : Project)
    (st : St) (dir : string) (names : list string) (nodes : list TreeNode)
  : list issueTemplate :=
  BLANK
  :: (localTemplate w st dir <$> filter isMarkdown names)
  ++ (remoteTemplate w c project
        <$> filter (fun node => isMarkdown (TreeNode_Path node)) nodes).

(** *** Notions used in the statements on [main] *)

(** The options of the update call for the selected labels and milestone. *)
Definition updatePayload (labels : list issueLabel) (milestone : issueMilestone)
  : UpdateIssueOptions :=
  {| AddLabels := label_Name <$> filter (fun l => label_ID l <> 0) labels;
     MilestoneID :=
       if decide (milestone_ID milestone = 0) then None
       else Some (milestone_ID milestone) |}.

(** The entries of [s] at the indexes [idxs], all in range. *)
Definition picks {A} (s : list A) (idxs : list Z) (picked : list A) : Prop :=
  Forall2 (fun idx a => 0 <= idx /\ s !! Z.to_nat idx = Some a) idxs picked.

(** The milestone [main] selects: the sentinel without a prompt when there is
    no milestone, else the entry at the index the prompt returns, whatever
    error comes with it. *)
Definition milestoneSelected (w : World) (milestones : list issueMilestone)
    (selected : issueMilestone) : Prop :=
  match milestones with
  | [] => selected = noMilestone
  | _ :: _ =>
      exists idx err,
        Find_milestone w (milestone_Name <$> milestones) = (idx, err) /\
        0 <= idx /\ milestones !! Z.to_nat idx = Some selected
  end.

(** The labels [main] selects: the sentinel list without a prompt when there
    is no label, else the entries at the indexes the prompt returns, all in
    range, after the sentinel when the prompt returns an error. *)
Definition labelsSelected (w : World) (labels : list issueLabel)
    (selected : list issueLabel) : Prop :=
  match labels with
  | [] => selected = noLabels
  | _ :: _ =>
      exists idxs err picked,
        FindMulti_label w
          ((fun l => label_Name l +:+ ": " +:+ label_Description l) <$> labels)
        = (idxs, err) /\
        picks labels idxs picked /\
        selected = match err with Some _ => noLabels | None => [] end ++ picked
  end.

(** An editing session from which the issue [issue] is created with [title]
    and [description], and after which the draft can be removed. *)
Definition created (w : World) (c : gitlabClient) (repository : Repository)
    (project : Project) (template : issueTemplate) (f : fs) (file : string)
    (argv : list string) (issueContent : bytes) (f' : fs)
    (title description : string) (issue : Issue) : Prop :=
  edited w repository (draftPattern project template) template f
    file argv issueContent f' /\
  issueContent <> prepopulated template /\
  title <> "" /\ oneLine title /\
  (string_of_bytes issueContent = title +:+ nl +:+ description
   \/ (string_of_bytes issueContent = title /\ description = "")) /\
  CreateIssue (gitlab c) (Project_ID project) title description = (Some issue, None) /\
  Remove_fault w file = None.

(** ** A concrete world *)

(** The error with which the fuzzy finder reports that the user left the
    prompt without choosing. *)
Definition ErrAbort : error := ErrExt "abort".

Definition demoEnv (gitEditor visual editor : string) (name : string) : string :=
  if String.eqb name "GIT_EDITOR" then gitEditor
  else if String.eqb name "VISUAL" then visual
  else if String.eqb name "EDITOR" then editor
  else "".

(** A repository for which [ConfigScoped] returns, at every scope, a
    configuration whose raw part has [core.editor] set to the given value, or
    has no [core] section.  Which configuration files that raw part is read
    from is the library's matter and is not modelled. *)
Definition demoRepository (coreEditor : option string) : Repository :=
  {| ConfigScoped := fun _ =>
       Ok {| Raw :=
               {| HasSection := fun name =>
                    match coreEditor with
                    | Some _ => String.eqb name "core"
                    | None => false
                    end;
                  Section := fun name =>
                    {| HasOption := fun key =>
                         match coreEditor with
                         | Some _ => String.eqb name "core" && String.eqb key "editor"
                         | None => false
                         end;
                       Option_ := fun key =>
                         match coreEditor with
                         | Some v =>
                             if String.eqb name "core" && String.eqb key "editor"
                             then v else ""
                         | None => ""
                         end |} |} |} |}.

Definition demoProject : Project :=
  {| Project_ID := 5; Project_Name := "tool"; Project_DefaultBranch := "main" |}.

Definition demoIssue : Issue :=
  {| Issue_IID := 12; Issue_WebURL := "https://gitlab.example/dev/tool/-/issues/12" |}.

(** A client of a project with two labels, the given active milestones and
    one remote template; issue creation fails with [createErr] if set. *)
Definition demoClient (milestones : list Milestone) (createErr : option error)
  : gitlabClient :=
  {| gitlab :=
       {| ListLabels := fun _ =>
            Ok [ {| Label_ID := 1; Label_Name := "bug"; Label_Description := "defect" |};
                 {| Label_ID := 2; Label_Name := "feature"; Label_Description := "new" |} ];
          ListMilestones := fun _ _ => Ok milestones;
          ListTree := fun _ _ _ =>
            Ok [ {| TreeNode_Path := ".gitlab/issue_templates/bug.md" |};
                 {| TreeNode_Path := ".gitlab/issue_templates/README" |} ];
          GetFile := fun _ _ _ =>
            Ok {| File_FileName := "bug.md"; File_Content := "IyBCdWcK" |};
          CreateIssue := fun _ _ _ =>
            match createErr with
            | Some e => (None, Some e)
            | None => (Some demoIssue, None)
            end;
          UpdateIssue := fun _ _ _ => None |} |}.

Definition demoMilestones : list Milestone :=
  [ {| Milestone_ID := 7; Milestone_Title := "v1.0" |};
    {| Milestone_ID := 8; Milestone_Title := "v2.0" |} ].

(** A world in which every call succeeds unless an error is passed in: the
    editor applies [edit] to the file named by its last argument, the listing
    of the template directory fails with [readDirErr] if set, removals fail
    with [removeErr] if set, and the user picks the first template and gives
    the two other answers as passed. *)
Definition demoWorld (env : string -> string) (edit : bytes -> bytes)
    (readDirErr removeErr : option error) (milestoneAnswer : Z * option error)
    (labelAnswer : list Z * option error) : World :=
  {| Getenv := env;
     homedir_Dir := Ok "/home/dev";
     filepath_Join := String.concat "/";
     MkdirAll := fun _ => None;
     ReadDir := fun _ =>
       match readDirErr with
       | Some e => ([], Some e)
       | None => (["a.md"; "notes.txt"; "b.md"], None)
       end;
     ReadFile_fault := fun _ => None;
     TempFile := fun _ pattern => Ok ("/tmp/570542" +:+ strings.drop 1 pattern);
     Write_fault := fun _ => None;
     Sync := fun _ => None;
     Run := fun argv f =>
       (match last argv with Some file => alter edit file f | None => f end, None);
     Remove_fault := fun _ => removeErr;
     DecodeString := fun s =>
       if String.eqb s "IyBCdWcK"
       then Ok (bytes_of_string ("# Bug" +:+ nl))
       else Err (ErrExt "illegal base64 data");
     Find_template := fun _ => (0, None);
     Find_milestone := fun _ => milestoneAnswer;
     FindMulti_label := fun _ => labelAnswer |}.

(** Two local templates on disk, nothing logged yet. *)
Definition demoSt : St :=
  {| files :=
       <["/home/dev/.config/gitlab/issue_templates/a.md" := bytes_of_string "A"]>
         (<["/home/dev/.config/gitlab/issue_templates/b.md" := bytes_of_string "B"]> ∅);
     trace := [] |}.

(** What the user may do to the draft. *)
Definition leaveUnchanged (b : bytes) : bytes := b.
Definition typeIssue (_ : bytes) : bytes :=
  bytes_of_string ("Title" +:+ nl +:+ nl +:+ "Body text").
Definition typeBelow (b : bytes) : bytes := b ++ bytes_of_string "text".

(** The world of an ordinary run: editor from [$EDITOR], no failure, the
    user picks the second milestone and the first label. *)
Definition plainWorld (edit : bytes -> bytes) : World :=
  demoWorld (demoEnv "" "" "nano -w") edit None None (1, None) ([0], None).

(** The draft of the concrete world for the blank template, and the command
    line of its editor. *)
Definition demoDraft : string := "/tmp/570542_tool_BLANK_pre-submit.md".
Definition demoArgv : list string := ["nano"; "-w"; demoDraft].


(** The world of a run in which the template directory cannot be listed. *)
Definition unlistableWorld : World :=
  demoWorld (demoEnv "" "" "nano -w") typeIssue
    (Some (ErrExt "open /home/dev/.config/gitlab/issue_templates: permission denied"))
    None (1, None) ([0], None).

(** The world of a run in which the removal of the draft fails. *)
Definition removalFailsWorld : World :=
  demoWorld (demoEnv "" "" "nano -w") typeIssue None
    (Some (ErrExt "operation not permitted")) (1, None) ([0], None).

(** The world of a run in which the user leaves both prompts that follow the
    creation of the issue without choosing. *)
Definition cancelWorld : World :=
  demoWorld (demoEnv "" "" "nano -w") typeIssue None None
    (0, Some ErrAbort) ([], Some ErrAbort).

(** ** The program: locating the repository and the project *)

(** The lines of [main] before the template listing (267-300) and the two
    functions they call are the same in both revisions.  They use parts of
    the libraries that the issue phase does not; these are modelled beside
    the records above. *)

(** [url.URL], the two fields the program reads. *)
Record URL := {
  URL_Host : string;
  URL_Path : string
}.

(** [gitlab.Project] as the project search returns it: the two fields that
    only the locating phase reads, beside the fields of [Project]. *)
Record SearchedProject := {
  PathWithNamespace : string;
  HTTPURLToRepo : string;
  asProject : Project
}.

(** [&gitlab.Project{}] *)
Definition emptyProject : SearchedProject :=
  {| PathWithNamespace := "";
     HTTPURLToRepo := "";
     asProject :=
       {| Project_ID := 0; Project_Name := ""; Project_DefaultBranch := "" |} |}.

(** [git.Repository] as [git.PlainOpen] returns it: the URLs configured for
    a remote ([Remote(name)], then [Config().URLs]), beside [Repository]. *)
Record OpenedRepository := {
  Remote_URLs : string -> result (list string);
  asRepository : Repository
}.

(** [gitlab.Client] as [gitlab.NewClient] returns it: the project search,
    beside the services of [Client]. *)
Record NewClient_ := {
  ListProjects : string -> result (list SearchedProject);
  asClient : Client
}.

(** Path functions, git, URL parsing and client construction. *)
Record Locating := {
  filepath_Abs : string -> result string;
  filepath_Dir : string -> string;
  filepath_Base : string -> string;
  PlainOpen : string -> result OpenedRepository;
  url_Parse : string -> result URL;
  (** [url.URL{Scheme, Host, Path}.String()] *)
  URL_String : string -> string -> string -> string;
  (** [gitlab.NewClient(token, gitlab.WithBaseURL(url))] *)
  NewClient : string -> string -> result NewClient_
}.

(** [findRepo] calls itself on the parent directory.  [depth] bounds the
    nesting of these calls; [None] says that the bound was reached. *)
Fixpoint findRepo (h : Locating) (depth : nat) (path : string)
  : option (result OpenedRepository) :=
  match depth with
  | O => None
  | S depth' =>
      let r := PlainOpen h path in
      let r :=
        match r with
        | Err _ =>
            if negb (String.eqb path "/")
            then findRepo h depth' (filepath_Dir h path)
            else Some r
        | Ok _ => Some r
        end in
      match r with
      | None => None
      | Some (Err err) =>
          Some (Err (Errorf "no git repository in %q: %w" [OStr path; OErr err]))
      | Some (Ok repo) => Some (Ok repo)
      end
  end.

(** The [for _, project := range projects] loop of [getProjectFromOrigin]. *)
Fixpoint findProjectLoop (projects : list SearchedProject) (projectPath : string)
  : option SearchedProject :=
  match projects with
  | [] => None
  | project :: rest =>
      if String.eqb ("/" +:+ PathWithNamespace project) projectPath
      then Some project
      else findProjectLoop rest projectPath
  end.

(** The receiver is [gitlabClient{gitlab: cli}]. *)
Definition getProjectFromOrigin (h : Locating) (cli : NewClient_) (originURL : URL)
  : option SearchedProject * option error :=
  let projectPath := strings.TrimSuffix (URL_Path originURL) ".git" in
  let projectName := filepath_Base h projectPath in
  match ListProjects cli projectName with
  | Err err =>
      (Some emptyProject, Some (Errorf "failed to list projects: %w" [OErr err]))
  | Ok projects =>
      match findProjectLoop projects projectPath with
      | Some project => (Some project, None)
      | None => (None, Some (Errorf "could not find project" []))
      end
  end.

(** What the first lines of [main] hand over to the rest. *)
Record Located := {
  located_repo : Repository;
  located_client : gitlabClient;
  located_project : Project
}.

(** [main], lines 267-300.  [None] says that [findRepo] reached the bound
    [depth]. *)
Definition mainLocate (h : Locating) (w : World) (depth : nat) (st : St)
  : option (exit Located * St) :=
  match filepath_Abs h "." with
  | Err err =>
      Some (Fatalf "Could not get full path of current dir: %s" [OErr err], st)
  | Ok currentFullPath =>
  match findRepo h depth currentFullPath with
  | None => None
  | Some (Err err) =>
      Some (Fatalf
              "Error finding git repo in working directory: %s. Please specify project"
              [OErr err],
            st)
  | Some (Ok repo) =>
  match Remote_URLs repo "origin" with
  | Err err => Some (Fatalf "Error getting remote origin: %s" [OErr err], st)
  | Ok urls =>
  match urls with
  | [] => Some (Panic, st)
  | origin :: _ =>
  let st := emit (EvLog "Origin URL: %s" [OStr origin]) st in
  match url_Parse h origin with
  | Err err =>
      Some (Fatalf "Error parsing URL for origin %s: %s" [OStr origin; OErr err], st)
  | Ok originURL =>
  let gitlabBaseURL := URL_String h "https" (URL_Host originURL) "/api/v4" in
  match NewClient h (Getenv w "GITLAB_TOKEN") gitlabBaseURL with
  | Err err => Some (Fatalf "Failed to create client: %s" [OErr err], st)
  | Ok cli =>
  let client := {| gitlab := asClient cli |} in
  match getProjectFromOrigin h cli originURL with
  | (_, Some err) =>
      Some (Fatalf "Failed to get project from origin URL: %s" [OErr err], st)
  | (None, None) => Some (Panic, st)
  | (Some project, None) =>
  let st := emit (EvLog "Found project: %s" [OStr (HTTPURLToRepo project)]) st in
  Some (Continue {| located_repo := asRepository repo;
                    located_client := client;
                    located_project := asProject project |},
        st)
  end end end end end end end.

(** [main] of the later revision, whole. *)
Definition mainProgram (h : Locating) (w : World) (depth : nat) (st : St)
  : option (exit unit * St) :=
  match mainLocate h w depth st with
  | None => None
  | Some (Continue l, st) =>
      Some (main w (located_client l) (located_repo l) (located_project l) st)
  | Some (Fatalf format operands, st) => Some (Fatalf format operands, st)
  | Some (Panic, st) => Some (Panic, st)
  end.

(** *** Notions used in the statements on locating *)

(** The directory [k] levels above [path]. *)
Fixpoint ancestor (h : Locating) (k : nat) (path : string) : string :=
  match k with
  | O => path
  | S k' => ancestor h k' (filepath_Dir h path)
  end.

(** [git.PlainOpen] fails on [path]. *)
Definition notARepository (h : Locating) (path : string) : Prop :=
  exists e, PlainOpen h path = Err e.

(** The error of [findRepo] started at [path] when no directory up to the
    root, [k] levels above, is a repository: one wrapping per directory, the
    innermost around the error of the root. *)
Fixpoint noRepositoryError (h : Locating) (k : nat) (path : string) : error :=
  let inner :=
    match k with
    | O => match PlainOpen h path with Err e => e | Ok _ => ErrExt "" end
    | S k' => noRepositoryError h k' (filepath_Dir h path)
    end in
  Errorf "no git repository in %q: %w" [OStr path; OErr inner].

(** *** A concrete world for locating *)

(** A clean path cut at its last slash. *)
Fixpoint splitLast (s : string) : option (string * string) :=
  match s with
  | EmptyString => None
  | String a s' =>
      match splitLast s' with
      | Some (d, b) => Some (String a d, b)
      | None => if Ascii.eqb a "/" then Some ("", s') else None
      end
  end.

Definition demoDir (s : string) : string :=
  match splitLast s with
  | None => "."
  | Some (EmptyString, _) => "/"
  | Some (d, _) => d
  end.

Definition demoBase (s : string) : string :=
  match splitLast s with
  | None => s
  | Some (_, b) => b
  end.

Definition demoOrigin : string := "https://gitlab.example/dev/tool.git".

Definition demoOpened : OpenedRepository :=
  {| Remote_URLs := fun name =>
       if String.eqb name "origin" then Ok [demoOrigin]
       else Err (ErrExt "remote not found");
     asRepository := demoRepository None |}.

Definition demoSearched : list SearchedProject :=
  [ {| PathWithNamespace := "ops/tool";
       HTTPURLToRepo := "https://gitlab.example/ops/tool.git";
       asProject :=
         {| Project_ID := 4; Project_Name := "tool"; Project_DefaultBranch := "main" |} |};
    {| PathWithNamespace := "dev/tool";
       HTTPURLToRepo := "https://gitlab.example/dev/tool.git";
       asProject := demoProject |} ].

Definition demoNewClient : NewClient_ :=
  {| ListProjects := fun _ => Ok demoSearched;
     asClient := gitlab (demoClient demoMilestones None) |}.

(** The working directory is [/home/dev/src/tool/cmd]; the only repository,
    if any, is at [repoAt]. *)
Definition demoLocating (repoAt : option string) : Locating :=
  {| filepath_Abs := fun _ => Ok "/home/dev/src/tool/cmd";
     filepath_Dir := demoDir;
     filepath_Base := demoBase;
     PlainOpen := fun path =>
       match repoAt with
       | Some p =>
           if String.eqb path p then Ok demoOpened
           else Err (ErrExt "repository does not exist")
       | None => Err (ErrExt "repository does not exist")
       end;
     url_Parse := fun raw =>
       if String.eqb raw demoOrigin
       then Ok {| URL_Host := "gitlab.example"; URL_Path := "/dev/tool.git" |}
       else Err (ErrExt "invalid URL");
     URL_String := fun scheme host path => scheme +:+ "://" +:+ host +:+ path;
     NewClient := fun _ _ => Ok demoNewClient |}.

(** The client of the concrete world, except that every update fails. *)
Definition updateFailsClient : gitlabClient :=
  {| gitlab :=
       {| ListLabels := ListLabels (gitlab (demoClient demoMilestones None));
          ListMilestones := ListMilestones (gitlab (demoClient demoMilestones None));
          ListTree := ListTree (gitlab (demoClient demoMilestones None));
          GetFile := GetFile (gitlab (demoClient demoMilestones None));
          CreateIssue := CreateIssue (gitlab (demoClient demoMilestones None));
          UpdateIssue := fun _ _ _ => Some (ErrExt "403 Forbidden") |} |}.

(** The client of the concrete world, except that the project has no label
    and the milestone listing fails. *)
Definition bareClient : gitlabClient :=
  {| gitlab :=
       {| ListLabels := fun _ => Ok [];
          ListMilestones := fun _ _ => Err (ErrExt "500 Internal Server Error");
          ListTree := ListTree (gitlab (demoClient demoMilestones None));
          GetFile := GetFile (gitlab (demoClient demoMilestones None));
          CreateIssue := CreateIssue (gitlab (demoClient demoMilestones None));
          UpdateIssue := UpdateIssue (gitlab (demoClient demoMilestones None)) |} |}.

(** A world in which the user leaves the template prompt without choosing. *)
Definition noTemplateWorld : World :=
  {| Getenv := Getenv (plainWorld typeIssue);
     homedir_Dir := homedir_Dir (plainWorld typeIssue);
     filepath_Join := filepath_Join (plainWorld typeIssue);
     MkdirAll := MkdirAll (plainWorld typeIssue);
     ReadDir := ReadDir (plainWorld typeIssue);
     ReadFile_fault := ReadFile_fault (plainWorld typeIssue);
     TempFile := TempFile (plainWorld typeIssue);
     Write_fault := Write_fault (plainWorld typeIssue);
     Sync := Sync (plainWorld typeIssue);
     Run := Run (plainWorld typeIssue);
     Remove_fault := Remove_fault (plainWorld typeIssue);
     DecodeString := DecodeString (plainWorld typeIssue);
     Find_template := fun _ => (0, Some ErrAbort);
     Find_milestone := Find_milestone (plainWorld typeIssue);
     FindMulti_label := FindMulti_label (plainWorld typeIssue) |}.

(** The files of the concrete world without the second local template,
    which the directory listing still names. *)
Definition demoStMissing : St :=
  {| files :=
       <["/home/dev/.config/gitlab/issue_templates/a.md" := bytes_of_string "A"]> ∅;
     trace := [] |}.

(** A world whose template directory lists the two templates only. *)
Definition tidyWorld : World :=
  {| Getenv := Getenv (plainWorld typeIssue);
     homedir_Dir := homedir_Dir (plainWorld typeIssue);
     filepath_Join := filepath_Join (plainWorld typeIssue);
     MkdirAll := MkdirAll (plainWorld typeIssue);
     ReadDir := fun _ => (["a.md"; "b.md"], None);
     ReadFile_fault := ReadFile_fault (plainWorld typeIssue);
     TempFile := TempFile (plainWorld typeIssue);
     Write_fault := Write_fault (plainWorld typeIssue);
     Sync := Sync (plainWorld typeIssue);
     Run := Run (plainWorld typeIssue);
     Remove_fault := Remove_fault (plainWorld typeIssue);
     DecodeString := DecodeString (plainWorld typeIssue);
     Find_template := Find_template (plainWorld typeIssue);
     Find_milestone := Find_milestone (plainWorld typeIssue);
     FindMulti_label := FindMulti_label (plainWorld typeIssue) |}.


(** The world [w] with other answers at the milestone and label prompts. *)
Definition withPrompts (w : World) (milestoneAnswer : list string -> Z * option error)
    (labelAnswer : list string -> list Z * option error) : World :=
  {| Getenv := Getenv w;
     homedir_Dir := homedir_Dir w;
     filepath_Join := filepath_Join w;
     MkdirAll := MkdirAll w;
     ReadDir := ReadDir w;
     ReadFile_fault := ReadFile_fault w;
     TempFile := TempFile w;
     Write_fault := Write_fault w;
     Sync := Sync w;
     Run := Run w;
     Remove_fault := Remove_fault w;
     DecodeString := DecodeString w;
     Find_template := Find_template w;
     Find_milestone := milestoneAnswer;
     FindMulti_label := labelAnswer |}.

(** * Properties *)

(** ** The string functions on examples *)

Example HasSuffix_md : strings.HasSuffix "bug.md" ".md" = true.
Proof. reflexivity. Qed.

Example TrimSuffix_md : strings.TrimSuffix "bug.md" ".md" = "bug".
Proof. reflexivity. Qed.

Example TrimSuffix_once : strings.TrimSuffix "a.md.md" ".md" = "a.md".
Proof. reflexivity. Qed.

Example Split_editor : strings.Split "code --wait" " " = ["code"; "--wait"].
Proof. reflexivity. Qed.

Example SplitN_two :
  strings.SplitN ("a" +:+ nl +:+ "b" +:+ nl +:+ "c") nl 2 = ["a"; "b" +:+ nl +:+ "c"].
Proof. reflexivity. Qed.



(** ** Splitting at the first line feed *)

Lemma append_cons a t r : String a t +:+ r = String a (t +:+ r).
Proof. reflexivity. Qed.

Lemma append_empty r : "" +:+ r = r.
Proof. reflexivity. Qed.

Lemma prefix_nl_cons a s : String.prefix nl (String a s) = bool_decide (a = LF).
Proof.
  unfold nl. cbn [String.prefix]. destruct (ascii_dec LF a) as [<-|Hne].
  - rewrite bool_decide_eq_true_2 by done. by destruct s.
  - rewrite bool_decide_eq_false_2; [done | congruence].
Qed.

Lemma Index_nl_absent s : oneLine s -> strings.Index s nl = None.
Proof.
  unfold oneLine. induction s as [|a s IH]; intros Hs; [done|].
  cbn [strings.Index]. rewrite prefix_nl_cons.
  cbn [list_ascii_of_string] in Hs. apply not_elem_of_cons in Hs as [Ha Hs].
  rewrite bool_decide_eq_false_2 by congruence.
  by rewrite IH.
Qed.

Lemma Index_nl_first t d :
  oneLine t -> strings.Index (t +:+ nl +:+ d) nl = Some (String.length t).
Proof.
  unfold oneLine. induction t as [|a t IH]; intros Ht.
  { change (strings.Index (String LF d) nl = Some O).
    cbn [strings.Index]. by rewrite prefix_nl_cons, bool_decide_eq_true_2. }
  rewrite append_cons. cbn [strings.Index String.length]. rewrite prefix_nl_cons.
  cbn [list_ascii_of_string] in Ht. apply not_elem_of_cons in Ht as [Ha Ht].
  rewrite bool_decide_eq_false_2 by congruence.
  by rewrite IH.
Qed.

Lemma take_append t r : strings.take (String.length t) (t +:+ r) = t.
Proof.
  induction t as [|a t IH]; [by destruct r|].
  rewrite append_cons. cbn. by rewrite IH.
Qed.

Lemma drop_append t r : strings.drop (String.length t) (t +:+ r) = r.
Proof.
  induction t as [|a t IH]; [done|].
  rewrite append_cons. cbn. by rewrite IH.
Qed.

Lemma drop_past_nl t d :
  strings.drop (String.length t + String.length nl) (t +:+ nl +:+ d) = d.
Proof.
  induction t as [|a t IH]; [done|].
  rewrite append_cons. cbn [String.length Nat.add strings.drop]. exact IH.
Qed.

(** Only the first line feed splits: what follows it is kept whole. *)
Lemma SplitN_first_newline t d :
  oneLine t -> strings.SplitN (t +:+ nl +:+ d) nl 2 = [t; d].
Proof.
  intros Ht. unfold strings.SplitN. cbn [strings.genSplit].
  rewrite Index_nl_first by done.
  by rewrite take_append, drop_past_nl.
Qed.

Lemma SplitN_no_newline s : oneLine s -> strings.SplitN s nl 2 = [s].
Proof.
  intros Hs. unfold strings.SplitN. cbn [strings.genSplit].
  by rewrite Index_nl_absent.
Qed.

(** [SplitN] with a positive count never gives the empty list, so the
    "empty issue content" branch is dead. *)
Lemma SplitN_nonempty s sep n : strings.SplitN s sep (S n) <> [].
Proof.
  unfold strings.SplitN. cbn [strings.genSplit].
  destruct n; [done|]. by destruct (strings.Index s sep).
Qed.

(** Every string is one line, or a first line, a line feed and the rest. *)
Lemma first_line_cases s :
  oneLine s \/ exists t d, s = t +:+ nl +:+ d /\ oneLine t.
Proof.
  unfold oneLine. induction s as [|a s IH].
  - left. cbn. apply not_elem_of_nil.
  - destruct (decide (a = LF)) as [->|Ha].
    + right. exists "", s. split; [done|]. cbn. apply not_elem_of_nil.
    + destruct IH as [IH|(t & d & -> & Ht)].
      * left. cbn. apply not_elem_of_cons. split; [congruence | done].
      * right. exists (String a t), d. split; [done|].
        cbn. apply not_elem_of_cons. split; [congruence | done].
Qed.

(** ** [createIssueFromTemplate] after an editing session *)

Lemma createCalls_app tr1 tr2 :
  createCalls (tr1 ++ tr2) = createCalls tr1 ++ createCalls tr2.
Proof. apply omap_app. Qed.

Lemma removeCalls_app tr1 tr2 :
  removeCalls (tr1 ++ tr2) = removeCalls tr1 ++ removeCalls tr2.
Proof. apply omap_app. Qed.

Lemma updateCalls_app tr1 tr2 :
  updateCalls (tr1 ++ tr2) = updateCalls tr1 ++ updateCalls tr2.
Proof. apply omap_app. Qed.

Lemma string_of_bytes_empty_title content :
  content = [] \/ (exists rest, content = LF :: rest) ->
  exists more, strings.SplitN (string_of_bytes content) nl 2 = "" :: more.
Proof.
  intros [->|[rest ->]]; [by exists []|].
  exists [string_of_bytes rest].
  change (string_of_bytes (LF :: rest)) with ("" +:+ nl +:+ string_of_bytes rest).
  apply SplitN_first_newline. unfold oneLine. cbn. apply not_elem_of_nil.
Qed.

(** Runs the later [createIssueFromTemplate] up to the comparison of the
    edited content with the prepopulated bytes. *)
Ltac run_edited H :=
  let editor := fresh "editor" in
  let Htmp := fresh "Htmp" in
  let Hwr := fresh "Hwr" in
  let Hsy := fresh "Hsy" in
  let Hge := fresh "Hge" in
  let Hrun := fresh "Hrun" in
  let Hrf := fresh "Hrf" in
  let Hrd := fresh "Hrd" in
  destruct H as (Htmp & Hwr & Hsy & (editor & Hge & ->) & Hrun & Hrf & Hrd);
  unfold draftPattern, draftFiles in *;
  unfold createIssueFromTemplate, ioutil_TempFile; rewrite Htmp;
  unfold File_Write; rewrite Hwr, Hsy, Hge;
  unfold cmd_Run; cbn [files emit set_files trace]; rewrite Hrun;
  unfold ioutil_ReadFile; rewrite Hrf; cbn [files emit set_files trace];
  rewrite Hrd.

Section Editing.
Context (w : World) (c : gitlabClient) (repository : Repository)
        (project : Project) (template : issueTemplate) (st : St).
Context (file : string) (argv : list string) (issueContent : bytes) (f' : fs).
Hypothesis session :
  edited w repository (draftPattern project template) template (files st)
    file argv issueContent f'.

Lemma createIssue_unchanged :
  issueContent = prepopulated template ->
  createIssueFromTemplate w c repository project template st
  = ((Some emptyIssue, Some (Errorf "content of issue has not been changed" [])),
     afterEdit st argv f').
Proof using session.
  intros Hsame. run_edited session.
  by rewrite decide_True.
Qed.

Lemma createIssue_empty_title :
  issueContent <> prepopulated template ->
  issueContent = [] \/ (exists rest, issueContent = LF :: rest) ->
  createIssueFromTemplate w c repository project template st
  = ((Some emptyIssue, Some (Errorf "empty issue title (%s)" [OStr file])),
     afterEdit st argv f').
Proof using session.
  intros Hdiff Hfirst. run_edited session.
  rewrite decide_False by done.
  destruct (string_of_bytes_empty_title _ Hfirst) as [more ->].
  done.
Qed.

Lemma createIssue_submits title description :
  issueContent <> prepopulated template ->
  title <> "" -> oneLine title ->
  string_of_bytes issueContent = title +:+ nl +:+ description
  \/ (string_of_bytes issueContent = title /\ description = "") ->
  createIssueFromTemplate w c repository project template st
  = let st1 :=
      emit (EvCreateIssue (Project_ID project) title description)
        (afterEdit st argv f') in
    match CreateIssue (gitlab c) (Project_ID project) title description with
    | (issue, Some err) =>
        ((issue,
          Some (Errorf "could not create gitlab issue: %w (%s)" [OErr err; OStr file])),
         st1)
    | (issue, None) =>
        let '(err, st2) := os_Remove w file st1 in ((issue, err), st2)
    end.
Proof using session.
  intros Hdiff Hne Hone Hsplit. run_edited session.
  rewrite decide_False by done.
  assert (Hlen : (String.length title =? 0)%nat = false).
  { destruct title; [done|]. done. }
  destruct Hsplit as [->|[-> ->]].
  - rewrite SplitN_first_newline by done. rewrite Hlen. cbn [length Nat.eqb nth].
    unfold Issues_CreateIssue.
    by destruct (CreateIssue _ _ _ _) as [issue [err|]].
  - rewrite SplitN_no_newline by done. rewrite Hlen. cbn [length Nat.eqb nth app].
    unfold Issues_CreateIssue.
    by destruct (CreateIssue _ _ _ _) as [issue [err|]].
Qed.

End Editing.

(** ** Claims on the edited draft *)

Lemma demoWorld_edited (edit : bytes -> bytes) readDirErr removeErr mAnswer lAnswer :
  edited (demoWorld (demoEnv "" "" "nano -w") edit readDirErr removeErr mAnswer lAnswer)
    (demoRepository None) (draftPattern demoProject BLANK)
    BLANK (files demoSt) demoDraft demoArgv (edit (prepopulated BLANK))
    (alter edit demoDraft (draftFiles (files demoSt) demoDraft BLANK)).
Proof.
  unfold edited. split_and!; try reflexivity.
  by exists "nano -w".
Qed.

Lemma demo_edited (edit : bytes -> bytes) :
  edited (plainWorld edit) (demoRepository None) (draftPattern demoProject BLANK)
    BLANK (files demoSt) demoDraft demoArgv (edit (prepopulated BLANK))
    (alter edit demoDraft (draftFiles (files demoSt) demoDraft BLANK)).
Proof. apply demoWorld_edited. Qed.

Lemma demoWorld_selects env edit removeErr mAnswer lAnswer ms createErr :
  selects (demoWorld env edit None removeErr mAnswer lAnswer)
    (demoClient ms createErr) demoProject demoSt BLANK.
Proof.
  eexists _, 0. split_and!; [vm_compute; reflexivity | reflexivity | lia | reflexivity].
Qed.

(** C7: whatever the template content (empty included), when an editing
    session reads back exactly the bytes that were written (two line feeds
    followed by the template content), [createIssueFromTemplate] fails with
    the "content of issue has not been changed" error, and no issue-creation
    call is made. *)
Theorem unchanged_content_is_rejected
    (w : World) (c : gitlabClient) (repository : Repository) (project : Project)
    (template : issueTemplate) (st : St) (file : string) (argv : list string)
    (issueContent : bytes) (f' : fs) :
  edited w repository (draftPattern project template) template (files st)
    file argv issueContent f' ->
  issueContent = [LF; LF] ++ template_Content template ->
  (createIssueFromTemplate w c repository project template st).1.2
  = Some (Errorf "content of issue has not been changed" [])
  /\ createCalls (trace (createIssueFromTemplate w c repository project template st).2)
     = createCalls (trace st).
Proof.
  intros Hsession Hsame.
  rewrite (createIssue_unchanged _ _ _ _ _ _ _ _ _ _ Hsession Hsame).
  split; [done|]. cbn [snd afterEdit trace].
  rewrite createCalls_app. apply app_nil_r.
Qed.

Lemma unchanged_content_is_rejected_witness :
  (createIssueFromTemplate (plainWorld leaveUnchanged) (demoClient demoMilestones None)
     (demoRepository None) demoProject BLANK demoSt).1.2
  = Some (Errorf "content of issue has not been changed" [])
  /\ createCalls
       (trace (createIssueFromTemplate (plainWorld leaveUnchanged)
                 (demoClient demoMilestones None) (demoRepository None) demoProject
                 BLANK demoSt).2)
     = createCalls (trace demoSt).
Proof.
  apply (unchanged_content_is_rejected (plainWorld leaveUnchanged)
           (demoClient demoMilestones None) (demoRepository None) demoProject BLANK
           demoSt demoDraft demoArgv (leaveUnchanged (prepopulated BLANK))
           (alter leaveUnchanged demoDraft (draftFiles (files demoSt) demoDraft BLANK))).
  - apply demo_edited.
  - reflexivity.
Defined.

(** C8: when the edited content differs from the prepopulated bytes and its
    first line is empty (the content is empty or starts with a line feed),
    [createIssueFromTemplate] fails with the "empty issue title" error, and no
    issue-creation call is made. *)
Theorem empty_first_line_is_rejected
    (w : World) (c : gitlabClient) (repository : Repository) (project : Project)
    (template : issueTemplate) (st : St) (file : string) (argv : list string)
    (issueContent : bytes) (f' : fs) :
  edited w repository (draftPattern project template) template (files st)
    file argv issueContent f' ->
  issueContent <> prepopulated template ->
  issueContent = [] \/ (exists rest, issueContent = LF :: rest) ->
  (createIssueFromTemplate w c repository project template st).1.2
  = Some (Errorf "empty issue title (%s)" [OStr file])
  /\ createCalls (trace (createIssueFromTemplate w c repository project template st).2)
     = createCalls (trace st).
Proof.
  intros Hsession Hdiff Hfirst.
  rewrite (createIssue_empty_title _ _ _ _ _ _ _ _ _ _ Hsession Hdiff Hfirst).
  split; [done|]. cbn [snd afterEdit trace].
  rewrite createCalls_app. apply app_nil_r.
Qed.

Lemma empty_first_line_is_rejected_witness :
  (createIssueFromTemplate (plainWorld typeBelow) (demoClient demoMilestones None)
     (demoRepository None) demoProject BLANK demoSt).1.2
  = Some (Errorf "empty issue title (%s)" [OStr demoDraft])
  /\ createCalls
       (trace (createIssueFromTemplate (plainWorld typeBelow)
                 (demoClient demoMilestones None) (demoRepository None) demoProject
                 BLANK demoSt).2)
     = createCalls (trace demoSt).
Proof.
  apply (empty_first_line_is_rejected (plainWorld typeBelow)
           (demoClient demoMilestones None) (demoRepository None) demoProject BLANK
           demoSt demoDraft demoArgv (typeBelow (prepopulated BLANK))
           (alter typeBelow demoDraft (draftFiles (files demoSt) demoDraft BLANK))).
  - apply demo_edited.
  - discriminate.
  - right. eexists. reflexivity.
Defined.

(** C5: an accepted content is split at its first line feed only.  If the
    content is [title], a line feed and [description], where [title] is not
    empty and has no line feed, the issue is created with that title and that
    description, line feeds of the description included; if the content is a
    single line without line feed, the issue is created with the content as
    title and the empty description. *)
Theorem content_is_split_at_first_newline
    (w : World) (c : gitlabClient) (repository : Repository) (project : Project)
    (template : issueTemplate) (st : St) (file : string) (argv : list string)
    (issueContent : bytes) (f' : fs) (title description : string) :
  edited w repository (draftPattern project template) template (files st)
    file argv issueContent f' ->
  issueContent <> prepopulated template ->
  title <> "" -> oneLine title ->
  string_of_bytes issueContent = title +:+ nl +:+ description
  \/ (string_of_bytes issueContent = title /\ description = "") ->
  createCalls (trace (createIssueFromTemplate w c repository project template st).2)
  = createCalls (trace st) ++ [(Project_ID project, title, description)].
Proof.
  intros Hsession Hdiff Hne Hone Hsplit.
  rewrite (createIssue_submits _ _ _ _ _ _ _ _ _ _ Hsession _ _ Hdiff Hne Hone Hsplit).
  cbn zeta.
  destruct (CreateIssue _ _ _ _) as [issue [err|]].
  - cbn [snd emit afterEdit trace].
    rewrite !createCalls_app. cbn. by rewrite app_nil_r.
  - unfold os_Remove.
    destruct (Remove_fault w file); [|destruct (_ !! file)];
      cbn [snd emit afterEdit trace set_files];
      rewrite !createCalls_app; cbn; by rewrite !app_nil_r.
Qed.

Lemma content_is_split_at_first_newline_witness :
  createCalls
    (trace (createIssueFromTemplate (plainWorld typeIssue)
              (demoClient demoMilestones None) (demoRepository None) demoProject
              BLANK demoSt).2)
  = createCalls (trace demoSt) ++ [(5, "Title", nl +:+ "Body text")].
Proof.
  apply (content_is_split_at_first_newline (plainWorld typeIssue)
           (demoClient demoMilestones None) (demoRepository None) demoProject BLANK
           demoSt demoDraft demoArgv (typeIssue (prepopulated BLANK))
           (alter typeIssue demoDraft (draftFiles (files demoSt) demoDraft BLANK))
           "Title" (nl +:+ "Body text")).
  - apply demo_edited.
  - discriminate.
  - discriminate.
  - unfold oneLine. cbn. rewrite !not_elem_of_cons. repeat split; try discriminate.
    apply not_elem_of_nil.
  - left. reflexivity.
Defined.

(** ** [main] around the creation of the issue *)

Ltac unfold_main :=
  unfold main, mbind, M_bind, bind, mret, M_ret, ret, reads, runs, when,
    log_Println, log_Printf, log_Fatalf, index, deref.

(** Up to its call of [createIssueFromTemplate], [main] only logs: the call
    sees the files of the start, and an error of the call ends the process. *)
Lemma main_create_error w client repo project st template :
  selects w client project st template ->
  exists st_c,
    files st_c = files st /\
    createCalls (trace st_c) = createCalls (trace st) /\
    updateCalls (trace st_c) = updateCalls (trace st) /\
    forall issue e st',
      createIssueFromTemplate w client repo project template st_c
      = ((issue, Some e), st') ->
      main w client repo project st
      = (Fatalf "could not create issue: %s" [OErr e], st').
Proof.
  intros (templates & idx & Hget & Hfind & Hidx & Hlook).
  unfold_main. rewrite Hget, Hfind.
  assert (Hneg : (idx <? 0) = false) by lia.
  destruct (getIssueLabels client project) as [labels [e1|]];
    destruct (getIssueMilestones client project) as [milestones [e2|]];
    destruct (length templates =? 0)%nat;
    destruct (length labels =? 0)%nat;
    destruct (length milestones =? 0)%nat;
    cbn; rewrite Hneg, Hlook; cbn;
    (eexists; split_and!;
     [ | | | intros issue e st' Hcreate; rewrite Hcreate; reflexivity ];
     [ reflexivity
     | cbn; rewrite ?createCalls_app; cbn; by rewrite ?app_nil_r
     | cbn; rewrite ?updateCalls_app; cbn; by rewrite ?app_nil_r ]).
Qed.

(** The later [createIssueFromTemplate] when the creation call succeeds and
    the removal of the draft fails. *)
Lemma createIssue_removal_fails
    w c repository project template st file argv issueContent f'
    title description issue e :
  edited w repository (draftPattern project template) template (files st)
    file argv issueContent f' ->
  issueContent <> prepopulated template ->
  title <> "" -> oneLine title ->
  string_of_bytes issueContent = title +:+ nl +:+ description
  \/ (string_of_bytes issueContent = title /\ description = "") ->
  CreateIssue (gitlab c) (Project_ID project) title description = (issue, None) ->
  Remove_fault w file = Some e ->
  createIssueFromTemplate w c repository project template st
  = ((issue, Some e),
     emit (EvRemove file)
       (emit (EvCreateIssue (Project_ID project) title description)
          (afterEdit st argv f'))).
Proof.
  intros Hsession Hdiff Hne Hone Hsplit Hcreate Hremove.
  rewrite (createIssue_submits _ _ _ _ _ _ _ _ _ _ Hsession _ _ Hdiff Hne Hone Hsplit).
  cbn zeta. rewrite Hcreate. unfold os_Remove. by rewrite Hremove.
Qed.

(** C10: when the creation call succeeds and the removal of the draft then
    fails, [createIssueFromTemplate] returns the created issue together with
    the removal error; [main] ends the process on that error with "could not
    create issue", although the creation call was made and succeeded. *)
Theorem removal_failure_after_creation_is_fatal
    (w : World) (client : gitlabClient) (repo : Repository) (project : Project)
    (template : issueTemplate) (st : St) (file : string) (argv : list string)
    (issueContent : bytes) (f' : fs) (title description : string)
    (issue : Issue) (e : error) :
  edited w repo (draftPattern project template) template (files st)
    file argv issueContent f' ->
  issueContent <> prepopulated template ->
  title <> "" -> oneLine title ->
  string_of_bytes issueContent = title +:+ nl +:+ description
  \/ (string_of_bytes issueContent = title /\ description = "") ->
  CreateIssue (gitlab client) (Project_ID project) title description
  = (Some issue, None) ->
  Remove_fault w file = Some e ->
  (createIssueFromTemplate w client repo project template st).1 = (Some issue, Some e)
  /\ (selects w client project st template ->
      (main w client repo project st).1
      = Fatalf "could not create issue: %s" [OErr e]
      /\ createCalls (trace (main w client repo project st).2)
         = createCalls (trace st) ++ [(Project_ID project, title, description)]
      /\ updateCalls (trace (main w client repo project st).2)
         = updateCalls (trace st)).
Proof.
  intros Hsession Hdiff Hne Hone Hsplit Hcreate Hremove. split.
  - by rewrite (createIssue_removal_fails _ _ _ _ _ _ _ _ _ _ _ _ _ _
                  Hsession Hdiff Hne Hone Hsplit Hcreate Hremove).
  - intros Hsel.
    destruct (main_create_error w client repo project st template Hsel)
      as (st_c & Hfiles & Hcalls & Hupd & Hfatal).
    rewrite <- Hfiles in Hsession.
    rewrite (Hfatal _ _ _
               (createIssue_removal_fails _ _ _ _ _ _ _ _ _ _ _ _ _ _
                  Hsession Hdiff Hne Hone Hsplit Hcreate Hremove)).
    cbn [fst snd emit afterEdit trace].
    rewrite !createCalls_app, !updateCalls_app, Hcalls, Hupd. cbn.
    by rewrite !app_nil_r.
Qed.

Lemma removal_failure_after_creation_is_fatal_witness :
  (createIssueFromTemplate removalFailsWorld (demoClient demoMilestones None)
     (demoRepository None) demoProject BLANK demoSt).1
  = (Some demoIssue, Some (ErrExt "operation not permitted"))
  /\ (main removalFailsWorld (demoClient demoMilestones None) (demoRepository None)
        demoProject demoSt).1
     = Fatalf "could not create issue: %s" [OErr (ErrExt "operation not permitted")].
Proof.
  destruct (removal_failure_after_creation_is_fatal removalFailsWorld
              (demoClient demoMilestones None) (demoRepository None) demoProject BLANK
              demoSt demoDraft demoArgv (typeIssue (prepopulated BLANK))
              (alter typeIssue demoDraft (draftFiles (files demoSt) demoDraft BLANK))
              "Title" (nl +:+ "Body text") demoIssue
              (ErrExt "operation not permitted")) as [Hcreate Hmain].
  - apply demoWorld_edited.
  - discriminate.
  - discriminate.
  - unfold oneLine. cbn. rewrite !not_elem_of_cons. repeat split; try discriminate.
    apply not_elem_of_nil.
  - left. reflexivity.
  - reflexivity.
  - reflexivity.
  - split; [exact Hcreate|]. apply Hmain. apply demoWorld_selects.
Defined.

(** ** The prompts after the creation of the issue *)

(** When the user leaves both prompts without choosing, the finder returns
    its error together with an index, respectively with no indexes.  [main]
    does not look at the error of the milestone prompt: the milestone at the
    returned index is taken, and its id is written to the update.  The error
    of the label prompt makes the label list fall back to the sentinel, so no
    label is added. *)
Lemma main_cancelled_prompts
    w client repo project st template milestones merr i m l0 ls lerr e1 e2 :
  selects w client project st template ->
  getIssueMilestones client project = (milestones, merr) ->
  getIssueLabels client project = (l0 :: ls, lerr) ->
  Find_milestone w (milestone_Name <$> milestones) = (i, Some e1) ->
  0 <= i -> milestones !! Z.to_nat i = Some m ->
  FindMulti_label w
    ((fun l => label_Name l +:+ ": " +:+ label_Description l) <$> l0 :: ls)
  = ([], Some e2) ->
  exists st_c,
    files st_c = files st /\
    forall issue st',
      createIssueFromTemplate w client repo project template st_c
      = ((Some issue, None), st') ->
      updateCalls (trace (main w client repo project st).2)
      = updateCalls (trace st') ++
        [(Project_ID project, Issue_IID issue,
          {| AddLabels := [];
             MilestoneID :=
               if milestone_ID m =? 0 then None else Some (milestone_ID m) |})].
Proof.
  intros (templates & idx & Hget & Hfind & Hidx & Hlook) Hms Hls Hfm Hi Hm Hfl.
  unfold_main. rewrite Hget, Hfind, Hms, Hls.
  assert (Hneg : (idx <? 0) = false) by lia.
  assert (Hineg : (i <? 0) = false) by lia.
  destruct milestones as [|m0 ms]; [done|].
  destruct merr as [em|]; destruct lerr as [el|];
    destruct (length templates =? 0)%nat;
    cbn; rewrite Hneg, Hlook; cbn;
    (eexists; split; cycle 1;
     [ intros issue st' Hcreate;
       rewrite Hcreate; cbn; cbn in Hfm, Hfl; rewrite Hfm, Hfl; cbn;
       rewrite Hineg, Hm; cbn;
       unfold setIssueLabelsMilestones, Issues_UpdateIssue, noLabels; cbn;
       destruct (milestone_ID m =? 0); cbn;
       destruct (UpdateIssue _ _ _ _); cbn;
       rewrite !updateCalls_app; cbn; by rewrite ?app_nil_r
     | reflexivity ]).
Qed.

(** C3 at a concrete run: two active milestones, the user leaves the
    milestone prompt and the label prompt without choosing.  The process goes
    on and sends no label, but the update sets the milestone to the first
    active one (id 7) instead of sending none. *)
Theorem cancelled_milestone_prompt_sets_first_milestone :
  (main cancelWorld (demoClient demoMilestones None) (demoRepository None)
     demoProject demoSt).1 = Continue tt
  /\ updateCalls
       (trace (main cancelWorld (demoClient demoMilestones None) (demoRepository None)
                 demoProject demoSt).2)
     = [(5, 12, {| AddLabels := []; MilestoneID := Some 7 |})].
Proof. split; vm_compute; reflexivity. Qed.

(** ** The update of labels and milestone *)

Lemma labelNames_loop labels acc :
  fold_left
    (fun labelNames l =>
       if negb (label_ID l =? 0) then labelNames ++ [label_Name l] else labelNames)
    labels acc
  = acc ++ (label_Name <$> filter (fun l => label_ID l <> 0) labels).
Proof.
  revert acc. induction labels as [|l labels IH]; intros acc.
  - by rewrite app_nil_r.
  - cbn [fold_left]. rewrite IH, filter_cons.
    destruct (Z.eqb_spec (label_ID l) 0) as [Hz|Hz]; cbn [negb].
    + by rewrite decide_False by (intros H; by apply H).
    + rewrite decide_True by done. by rewrite fmap_cons, <- app_assoc.
Qed.

(** C4: for every label list and milestone, the one update call that
    [setIssueLabelsMilestones] makes adds exactly the names of the labels
    whose id is not 0, in order, and carries a milestone id if and only if the
    milestone's id is not 0, in which case it is that id.  With the sentinel
    label list and the sentinel milestone it adds no label and carries no
    milestone id. *)
Theorem setIssueLabelsMilestones_payload
    (c : gitlabClient) (project : Project) (issue : Issue)
    (labels : list issueLabel) (milestone : issueMilestone) (st : St) :
  (exists options,
     trace (setIssueLabelsMilestones c project issue labels milestone st).2
     = trace st ++ [EvUpdateIssue (Project_ID project) (Issue_IID issue) options]
     /\ AddLabels options = label_Name <$> filter (fun l => label_ID l <> 0) labels
     /\ (forall name,
           name ∈ AddLabels options <->
           exists l, l ∈ labels /\ label_ID l <> 0 /\ label_Name l = name)
     /\ (forall id,
           MilestoneID options = Some id <->
           milestone_ID milestone = id /\ milestone_ID milestone <> 0))
  /\ trace (setIssueLabelsMilestones c project issue noLabels noMilestone st).2
     = trace st ++ [EvUpdateIssue (Project_ID project) (Issue_IID issue)
                      {| AddLabels := []; MilestoneID := None |}].
Proof.
  split; [|reflexivity].
  unfold setIssueLabelsMilestones, Issues_UpdateIssue. cbn [snd emit trace].
  eexists. split; [reflexivity|].
  rewrite labelNames_loop, app_nil_l.
  assert (Hadd : forall o1 o2 : UpdateIssueOptions, forall b : bool,
             AddLabels o1 = AddLabels o2 -> AddLabels (if b then o1 else o2) = AddLabels o2)
    by (by intros o1 o2 []).
  rewrite Hadd by reflexivity. cbn [AddLabels].
  split_and!; [reflexivity | |].
  - intros name. rewrite list_elem_of_fmap. split.
    + intros (l & -> & Hl). apply list_elem_of_filter in Hl as [Hid Hl]. eauto.
    + intros (l & Hl & Hid & <-). exists l. split; [done|].
      by apply list_elem_of_filter.
  - intros id.
    destruct (Z.eqb_spec (milestone_ID milestone) 0) as [Hz|Hz]; cbn [negb MilestoneID].
    + split; [done | by intros [_ ?]].
    + split; [intros [= <-]; done | by intros [-> _]].
Qed.

(** ** The editor *)

(** With [GIT_EDITOR] set, the configuration is not even loaded. *)
Lemma getEditor_GIT_EDITOR w repository v :
  envSet w "GIT_EDITOR" = Some v -> getEditor w repository = (v, None).
Proof.
  unfold envSet, getEditor. destruct (String.eqb _ ""); [done|]. by intros [= ->].
Qed.




(** ** The template list *)

Section Templates.
Context (w : World) (c : gitlabClient) (project : Project) (st : St).

Lemma localTemplatesLoop_ok dir names acc :
  (forall name, name ∈ names -> isMarkdown name ->
     exists b, ioutil_ReadFile w (filepath_Join w [dir; name]) st = Ok b) ->
  localTemplatesLoop w st dir names acc
  = (acc ++ (localTemplate w st dir <$> filter isMarkdown names), None).
Proof.
  revert acc. induction names as [|name names IH]; intros acc Hread.
  - by rewrite app_nil_r.
  - cbn [localTemplatesLoop]. rewrite filter_cons.
    assert (Hrest : forall n, n ∈ names -> isMarkdown n ->
              exists b, ioutil_ReadFile w (filepath_Join w [dir; n]) st = Ok b).
    { intros n Hn. apply Hread. by right. }
    destruct (decide (isMarkdown name)) as [Hmd|Hmd].
    + unfold isMarkdown in Hmd. rewrite Hmd. cbn [negb].
      destruct (Hread name) as [b Hb]; [by left | done |].
      rewrite Hb, IH by done. rewrite fmap_cons, <- app_assoc.
      unfold localTemplate at 2. by rewrite Hb.
    + unfold isMarkdown in Hmd. apply not_true_is_false in Hmd.
      rewrite Hmd. cbn [negb]. by apply IH.
Qed.

Lemma remoteTemplatesLoop_ok nodes acc :
  (forall node, node ∈ nodes -> isMarkdown (TreeNode_Path node) ->
     fetchable w c project node) ->
  remoteTemplatesLoop w c project nodes acc
  = (acc ++ (remoteTemplate w c project
               <$> filter (fun node => isMarkdown (TreeNode_Path node)) nodes),
     None).
Proof.
  revert acc. induction nodes as [|node nodes IH]; intros acc Hfetch.
  - by rewrite app_nil_r.
  - cbn [remoteTemplatesLoop]. rewrite filter_cons.
    assert (Hrest : forall n, n ∈ nodes -> isMarkdown (TreeNode_Path n) ->
              fetchable w c project n).
    { intros n Hn. apply Hfetch. by right. }
    destruct (decide (isMarkdown (TreeNode_Path node))) as [Hmd|Hmd].
    + unfold isMarkdown in Hmd. rewrite Hmd. cbn [negb].
      destruct (Hfetch node) as (file & content & Hfile & Hdec); [by left | done |].
      rewrite Hfile, Hdec, IH by done. rewrite fmap_cons, <- app_assoc.
      unfold remoteTemplate at 2. by rewrite Hfile, Hdec.
    + unfold isMarkdown in Hmd. apply not_true_is_false in Hmd.
      rewrite Hmd. cbn [negb]. by apply IH.
Qed.

(** The listing error plays no part in [getLocalIssueTemplates]. *)
Lemma getLocalIssueTemplates_listing home names listingError :
  homedir_Dir w = Ok home ->
  MkdirAll w (templateDir w home) = None ->
  ReadDir w (templateDir w home) = (names, listingError) ->
  getLocalIssueTemplates w st
  = localTemplatesLoop w st (templateDir w home) names [].
Proof.
  intros Hhome Hmk Hls. unfold getLocalIssueTemplates, templateDir in *.
  by rewrite Hhome, Hmk, Hls.
Qed.

End Templates.

(** C6: when the template directory is in place and every [.md] entry of
    either source can be read (fetched and decoded, for the remote ones),
    [getIssueTemplates] returns without error the blank template, then one
    template ["<name without .md> [local]"] per local [.md] entry in the order
    of the directory listing, then one template named after the fetched file
    without [.md] per remote [.md] entry in the order of the tree; the other
    entries of both sources are skipped. *)
Theorem getIssueTemplates_order
    (w : World) (c : gitlabClient) (project : Project) (st : St)
    (home : string) (names : list string) (listingError : option error)
    (nodes : list TreeNode) :
  homedir_Dir w = Ok home ->
  MkdirAll w (templateDir w home) = None ->
  ReadDir w (templateDir w home) = (names, listingError) ->
  (forall name, name ∈ names -> isMarkdown name ->
     exists b,
       ioutil_ReadFile w (filepath_Join w [templateDir w home; name]) st = Ok b) ->
  ListTree (gitlab c) (Project_ID project) (Project_DefaultBranch project)
    ".gitlab/issue_templates" = Ok nodes ->
  (forall node, node ∈ nodes -> isMarkdown (TreeNode_Path node) ->
     fetchable w c project node) ->
  getIssueTemplates w c project st
  = (mergedTemplates w c project st (templateDir w home) names nodes, None).
Proof.
  intros Hhome Hmk Hls Hread Htree Hfetch. unfold getIssueTemplates.
  rewrite (getLocalIssueTemplates_listing w st home names listingError) by done.
  rewrite localTemplatesLoop_ok by done. cbn [app].
  rewrite Htree. by rewrite remoteTemplatesLoop_ok.
Qed.

Lemma getIssueTemplates_order_witness :
  getIssueTemplates (plainWorld typeIssue) (demoClient demoMilestones None)
    demoProject demoSt
  = ([ BLANK;
       {| template_Name := "a [local]"; template_Content := bytes_of_string "A" |};
       {| template_Name := "b [local]"; template_Content := bytes_of_string "B" |};
       {| template_Name := "bug";
          template_Content := bytes_of_string ("# Bug" +:+ nl) |} ],
     None).
Proof.
  apply (getIssueTemplates_order (plainWorld typeIssue)
           (demoClient demoMilestones None) demoProject demoSt "/home/dev"
           ["a.md"; "notes.txt"; "b.md"] None
           [ {| TreeNode_Path := ".gitlab/issue_templates/bug.md" |};
             {| TreeNode_Path := ".gitlab/issue_templates/README" |} ]).
  - reflexivity.
  - reflexivity.
  - reflexivity.
  - intros name Hname Hmd.
    rewrite !elem_of_cons in Hname.
    destruct Hname as [->|[->|[->|Hname]]];
      [by eexists | discriminate Hmd | by eexists | by apply elem_of_nil in Hname].
  - reflexivity.
  - intros node Hnode Hmd.
    rewrite !elem_of_cons in Hnode.
    destruct Hnode as [->|[->|Hnode]];
      [by eexists _, _ | discriminate Hmd | by apply elem_of_nil in Hnode].
Defined.

(** ** Failures while the templates are collected *)

Section TemplateFailures.
Context (w : World) (c : gitlabClient) (project : Project) (st : St).

Lemma localTemplatesLoop_fails dir names acc name e :
  name ∈ names -> isMarkdown name ->
  ioutil_ReadFile w (filepath_Join w [dir; name]) st = Err e ->
  is_Some (localTemplatesLoop w st dir names acc).2.
Proof.
  intros Hin Hmd Hfail. revert acc.
  induction names as [|n names IH]; intros acc; [by apply elem_of_nil in Hin|].
  cbn [localTemplatesLoop].
  destruct (strings.HasSuffix n ".md") eqn:Hn; cbn [negb].
  - destruct (ioutil_ReadFile w (filepath_Join w [dir; n]) st) eqn:Hread; [|by eexists].
    apply elem_of_cons in Hin as [->|Hin]; [congruence | by apply IH].
  - apply elem_of_cons in Hin as [->|Hin]; [unfold isMarkdown in Hmd; congruence|].
    by apply IH.
Qed.

Lemma remoteTemplatesLoop_fails nodes acc node :
  node ∈ nodes -> isMarkdown (TreeNode_Path node) ->
  ~ fetchable w c project node ->
  is_Some (remoteTemplatesLoop w c project nodes acc).2.
Proof.
  intros Hin Hmd Hfail. revert acc.
  induction nodes as [|n nodes IH]; intros acc; [by apply elem_of_nil in Hin|].
  cbn [remoteTemplatesLoop].
  destruct (strings.HasSuffix (TreeNode_Path n) ".md") eqn:Hn; cbn [negb].
  - destruct (GetFile _ _ _ _) as [file|] eqn:Hfile; [|by eexists].
    destruct (DecodeString w (File_Content file)) as [content|] eqn:Hdec; [|by eexists].
    apply elem_of_cons in Hin as [->|Hin]; [|by apply IH].
    destruct Hfail. by exists file, content.
  - apply elem_of_cons in Hin as [->|Hin]; [unfold isMarkdown in Hmd; congruence|].
    by apply IH.
Qed.

(** X20: every failure but that of the directory listing makes
    [getIssueTemplates] return an error: the home directory lookup, the
    creation of the template directory, the read of a local [.md] file, the
    listing of the remote tree, and the fetch or the decoding of a remote
    [.md] file. *)
Lemma getIssueTemplates_reported_failures :
  (forall e, homedir_Dir w = Err e -> is_Some (getIssueTemplates w c project st).2)
  /\ (forall home e,
        homedir_Dir w = Ok home -> MkdirAll w (templateDir w home) = Some e ->
        is_Some (getIssueTemplates w c project st).2)
  /\ (forall home names listingError name e,
        homedir_Dir w = Ok home -> MkdirAll w (templateDir w home) = None ->
        ReadDir w (templateDir w home) = (names, listingError) ->
        name ∈ names -> isMarkdown name ->
        ioutil_ReadFile w (filepath_Join w [templateDir w home; name]) st = Err e ->
        is_Some (getIssueTemplates w c project st).2)
  /\ (forall e,
        ListTree (gitlab c) (Project_ID project) (Project_DefaultBranch project)
          ".gitlab/issue_templates" = Err e ->
        is_Some (getIssueTemplates w c project st).2)
  /\ (forall nodes node,
        ListTree (gitlab c) (Project_ID project) (Project_DefaultBranch project)
          ".gitlab/issue_templates" = Ok nodes ->
        node ∈ nodes -> isMarkdown (TreeNode_Path node) ->
        ~ fetchable w c project node ->
        is_Some (getIssueTemplates w c project st).2).
Proof.
  split_and!.
  - intros e He. unfold getIssueTemplates, getLocalIssueTemplates.
    rewrite He. by eexists.
  - intros home e Hhome He. unfold getIssueTemplates, getLocalIssueTemplates.
    unfold templateDir in He. rewrite Hhome, He. by eexists.
  - intros home names le name e Hhome Hmk Hls Hin Hmd Hread.
    unfold getIssueTemplates.
    rewrite (getLocalIssueTemplates_listing w st home names le) by done.
    destruct (localTemplatesLoop_fails (templateDir w home) names [] name e
                Hin Hmd Hread) as [err Herr].
    destruct (localTemplatesLoop _ _ _ _ _) as [l o]. cbn in Herr. subst o.
    by eexists.
  - intros e He. unfold getIssueTemplates.
    destruct (getLocalIssueTemplates w st) as [l [err|]]; [by eexists|].
    rewrite He. by eexists.
  - intros nodes node Htree Hin Hmd Hfail. unfold getIssueTemplates.
    destruct (getLocalIssueTemplates w st) as [l [err|]]; [by eexists|].
    rewrite Htree. by apply remoteTemplatesLoop_fails with node.
Qed.

End TemplateFailures.

(** X23: the two revisions of [getIssueTemplates] return the same error,
    and the same list when there is none. *)
Lemma MainGo_getIssueTemplates_agrees w c project st :
  (MainGo.getIssueTemplates w c project st).2 = (getIssueTemplates w c project st).2
  /\ ((getIssueTemplates w c project st).2 = None ->
      MainGo.getIssueTemplates w c project st = getIssueTemplates w c project st).
Proof.
  unfold MainGo.getIssueTemplates, getIssueTemplates.
  destruct (getLocalIssueTemplates w st) as [l [e|]]; [by split|].
  by destruct (ListTree _ _ _ _).
Qed.

(** C2 at a concrete run: the listing of the local template directory fails
    (permission denied).  [getIssueTemplates] returns no error, in either
    revision: the result is the blank template and the remote one, as if the
    directory were empty. *)
Theorem listing_failure_is_not_reported :
  is_Some (ReadDir unlistableWorld (templateDir unlistableWorld "/home/dev")).2
  /\ getIssueTemplates unlistableWorld (demoClient demoMilestones None)
       demoProject demoSt
     = ([ BLANK;
          {| template_Name := "bug";
             template_Content := bytes_of_string ("# Bug" +:+ nl) |} ],
        None)
  /\ (MainGo.getIssueTemplates unlistableWorld (demoClient demoMilestones None)
        demoProject demoSt).2 = None.
Proof. split_and!; [by eexists | reflexivity | reflexivity]. Qed.

(** ** The life of the draft file *)

(** X24: later revision: if the editor does not delete the draft, the draft
    is on disk after every run that ends with an error. *)
Lemma draft_kept_on_failure w c repository project template st file :
  TempFile w "" (draftPattern project template) = Ok file ->
  (forall argv f, is_Some (f !! file) -> is_Some ((Run w argv f).1 !! file)) ->
  is_Some (createIssueFromTemplate w c repository project template st).1.2 ->
  is_Some (files (createIssueFromTemplate w c repository project template st).2 !! file).
Proof.
  intros Htmp Hkeep. unfold draftPattern in Htmp.
  unfold createIssueFromTemplate, ioutil_TempFile. rewrite Htmp.
  unfold File_Write.
  destruct (Write_fault w file);
    [cbn; intros _; by rewrite lookup_insert_eq|].
  destruct (Sync w file);
    [cbn; intros _; by rewrite lookup_insert_eq|].
  destruct (getEditor w repository) as [editor [e|]];
    [cbn; intros _; by rewrite lookup_insert_eq|].
  unfold cmd_Run. cbn [files emit set_files trace].
  pose proof (Hkeep (strings.Split editor " " ++ [file])
                (<[file:=prepopulated template]> (<[file:=[]]> (files st)))) as Hf.
  destruct (Run w _ _) as [f' rerr]. cbn [fst] in Hf.
  specialize (Hf ltac:(by rewrite lookup_insert_eq)).
  destruct rerr; [done|].
  unfold ioutil_ReadFile. destruct (ReadFile_fault w file); [done|].
  cbn [files set_files emit trace]. destruct Hf as [content Hf]. rewrite Hf.
  destruct (decide _); [done|].
  destruct (strings.SplitN _ _ _) as [|title more]; [done|].
  destruct (_ =? _)%nat; [done|].
  unfold Issues_CreateIssue. destruct (CreateIssue _ _ _ _) as [issue [err|]]; [done|].
  unfold os_Remove. destruct (Remove_fault w file); [done|].
  cbn [files set_files emit trace]. rewrite Hf. cbn. by intros [? [=]].
Qed.

(** X25: later revision: the program removes the draft only after an
    issue-creation call that succeeded, and removes nothing else. *)
Lemma draft_removed_only_after_creation w c repository project template st :
  removeCalls (trace (createIssueFromTemplate w c repository project template st).2)
  = removeCalls (trace st)
  \/ exists file title description issue,
       TempFile w "" (draftPattern project template) = Ok file /\
       CreateIssue (gitlab c) (Project_ID project) title description = (issue, None) /\
       createCalls (trace (createIssueFromTemplate w c repository project template st).2)
       = createCalls (trace st) ++ [(Project_ID project, title, description)] /\
       removeCalls (trace (createIssueFromTemplate w c repository project template st).2)
       = removeCalls (trace st) ++ [file].
Proof.
  unfold createIssueFromTemplate, ioutil_TempFile, draftPattern.
  destruct (TempFile w _ _) as [file|]; [|by left].
  unfold File_Write. destruct (Write_fault w file); [by left|].
  destruct (Sync w file); [by left|].
  destruct (getEditor w repository) as [editor [e|]]; [by left|].
  unfold cmd_Run. cbn [files emit set_files trace].
  destruct (Run w _ _) as [f' rerr].
  assert (Hexec : forall argv,
            removeCalls (trace st ++ [EvExec argv]) = removeCalls (trace st)).
  { intros argv. rewrite removeCalls_app. apply app_nil_r. }
  destruct rerr; [left; apply Hexec|].
  unfold ioutil_ReadFile. destruct (ReadFile_fault w file); [left; apply Hexec|].
  cbn [files set_files emit trace].
  destruct (f' !! file) as [content|]; [|left; apply Hexec].
  destruct (decide _); [left; apply Hexec|].
  destruct (strings.SplitN _ _ _) as [|title more]; [left; apply Hexec|].
  destruct (_ =? _)%nat; [left; apply Hexec|].
  unfold Issues_CreateIssue.
  destruct (CreateIssue _ _ _ _) as [issue [err|]] eqn:Hcreate.
  { left. cbn. rewrite !removeCalls_app. cbn. by rewrite !app_nil_r. }
  right. eexists file, _, _, issue. split_and!; [done | exact Hcreate | |].
  - unfold os_Remove. destruct (Remove_fault w file); [|destruct (_ !! file)];
      cbn; rewrite !createCalls_app; cbn; by rewrite !app_nil_r.
  - unfold os_Remove. destruct (Remove_fault w file); [|destruct (_ !! file)];
      cbn; rewrite !removeCalls_app; cbn; by rewrite !app_nil_r.
Qed.

(** X26: earlier revision: unless the removal itself fails, the draft is
    gone after every run that created it, whatever the result. *)
Lemma MainGo_draft_always_removed w c repository project template st file :
  TempFile w "" "*pre-submit.md" = Ok file ->
  Remove_fault w file = None ->
  files (MainGo.createIssueFromTemplate w c repository project template st).2 !! file
  = None.
Proof.
  intros Htmp Hrm.
  unfold MainGo.createIssueFromTemplate, ioutil_TempFile. rewrite Htmp.
  match goal with
  | |- context [match ?body with (_, _) => _ end] => destruct body as [results st1]
  end.
  unfold os_Remove. rewrite Hrm. cbn [files emit].
  destruct (files st1 !! file) eqn:Hfile; cbn; [apply lookup_delete_eq | done].
Qed.

(** C1 at two concrete runs of the earlier revision ([main.go]).  In the
    first the user leaves the draft unchanged, in the second the creation call
    fails after the user wrote an issue: both runs end with an error, and in
    both the deferred removal has deleted the draft. *)
Theorem MainGo_draft_removed_on_failure :
  ((MainGo.createIssueFromTemplate (plainWorld leaveUnchanged)
      (demoClient demoMilestones None) (demoRepository None) demoProject BLANK
      demoSt).1.2
   = Some (Errorf "content of issue has not been changed" [])
   /\ files (MainGo.createIssueFromTemplate (plainWorld leaveUnchanged)
               (demoClient demoMilestones None) (demoRepository None) demoProject
               BLANK demoSt).2 !! "/tmp/570542pre-submit.md"
      = None)
  /\ ((MainGo.createIssueFromTemplate (plainWorld typeIssue)
         (demoClient demoMilestones (Some (ErrExt "503 Service Unavailable")))
         (demoRepository None) demoProject BLANK demoSt).1.2
      = Some (Errorf "could not create gitlab issue: %w"
                [OErr (ErrExt "503 Service Unavailable")])
      /\ files (MainGo.createIssueFromTemplate (plainWorld typeIssue)
                  (demoClient demoMilestones (Some (ErrExt "503 Service Unavailable")))
                  (demoRepository None) demoProject BLANK demoSt).2
         !! "/tmp/570542pre-submit.md"
         = None).
Proof. split_and!; vm_compute; reflexivity. Qed.

(** The same two runs in the later revision keep the draft. *)
Example draft_kept_in_later_revision :
  files (createIssueFromTemplate (plainWorld leaveUnchanged)
           (demoClient demoMilestones None) (demoRepository None) demoProject
           BLANK demoSt).2 !! demoDraft
  = Some [LF; LF]
  /\ files (createIssueFromTemplate (plainWorld typeIssue)
              (demoClient demoMilestones (Some (ErrExt "503 Service Unavailable")))
              (demoRepository None) demoProject BLANK demoSt).2 !! demoDraft
     = Some (bytes_of_string ("Title" +:+ nl +:+ nl +:+ "Body text")).
Proof. split; vm_compute; reflexivity. Qed.

(** * Further properties *)

(** ** Suffixes *)

Lemma length_append s r : String.length (s +:+ r) = (String.length s + String.length r)%nat.
Proof. induction s as [|a s IH]; [done|]. rewrite append_cons. cbn. by rewrite IH. Qed.

Lemma HasSuffix_append s suffix : strings.HasSuffix (s +:+ suffix) suffix = true.
Proof.
  unfold strings.HasSuffix. rewrite length_append.
  replace (String.length s + String.length suffix - String.length suffix)%nat
    with (String.length s) by lia.
  rewrite drop_append, String.eqb_refl, andb_true_r.
  apply Nat.leb_le. lia.
Qed.

Lemma TrimSuffix_append s suffix : strings.TrimSuffix (s +:+ suffix) suffix = s.
Proof.
  unfold strings.TrimSuffix. rewrite HasSuffix_append, length_append.
  replace (String.length s + String.length suffix - String.length suffix)%nat
    with (String.length s) by lia.
  apply take_append.
Qed.

Lemma TrimSuffix_absent s suffix :
  strings.HasSuffix s suffix = false -> strings.TrimSuffix s suffix = s.
Proof. unfold strings.TrimSuffix. by intros ->. Qed.

Lemma append_inj_l s r1 r2 : s +:+ r1 = s +:+ r2 -> r1 = r2.
Proof.
  induction s as [|a s IH]; [done|]. rewrite !append_cons. intros [= H]. by apply IH.
Qed.

(** ** [findRepo] *)

Section FindRepo.
Context (h : Locating).

Lemma findRepo_nearest_aux k :
  forall path depth repo,
    (forall i, (i < k)%nat ->
       ancestor h i path <> "/" /\ notARepository h (ancestor h i path)) ->
    PlainOpen h (ancestor h k path) = Ok repo ->
    (k < depth)%nat ->
    findRepo h depth path = Some (Ok repo).
Proof.
  induction k as [|k IH]; intros path depth repo Habove Hopen Hdepth;
    (destruct depth as [|depth]; [lia|]); cbn [findRepo].
  - cbn in Hopen. by rewrite Hopen.
  - destruct (Habove O ltac:(lia)) as [Hroot [e He]]. cbn in Hroot, He.
    rewrite He. apply String.eqb_neq in Hroot. rewrite Hroot. cbn [negb].
    rewrite (IH (filepath_Dir h path) depth repo); [done | | done | lia].
    intros i Hi. apply (Habove (S i)). lia.
Qed.

Lemma findRepo_root_aux k :
  forall path depth,
    (forall i, (i < k)%nat -> ancestor h i path <> "/") ->
    ancestor h k path = "/" ->
    (forall i, (i <= k)%nat -> notARepository h (ancestor h i path)) ->
    (k < depth)%nat ->
    findRepo h depth path = Some (Err (noRepositoryError h k path)).
Proof.
  induction k as [|k IH]; intros path depth Habove Hroot Hnone Hdepth;
    (destruct depth as [|depth]; [lia|]); cbn [findRepo noRepositoryError].
  - destruct (Hnone O ltac:(lia)) as [e He]. cbn in Hroot, He. subst path.
    by rewrite He.
  - destruct (Hnone O ltac:(lia)) as [e He]. cbn in He. rewrite He.
    pose proof (Habove O ltac:(lia)) as Hne. cbn in Hne.
    apply String.eqb_neq in Hne. rewrite Hne. cbn [negb].
    rewrite (IH (filepath_Dir h path) depth); [done | | done | | lia].
    + intros i Hi. apply (Habove (S i)). lia.
    + intros i Hi. apply (Hnone (S i)). lia.
Qed.

Lemma findRepo_sound_aux depth :
  forall path repo,
    findRepo h depth path = Some (Ok repo) ->
    exists k,
      (k < depth)%nat /\
      PlainOpen h (ancestor h k path) = Ok repo /\
      forall i, (i < k)%nat ->
        ancestor h i path <> "/" /\ notARepository h (ancestor h i path).
Proof.
  induction depth as [|depth IH]; intros path repo; [done|].
  cbn [findRepo].
  destruct (PlainOpen h path) as [r|e] eqn:Hopen.
  - intros [= <-]. exists O. split_and!; [lia | done | intros i Hi; lia].
  - destruct (String.eqb_spec path "/") as [->|Hroot]; cbn [negb]; [done|].
    destruct (findRepo h depth (filepath_Dir h path)) as [[r|e']|] eqn:Hrec; [|done..].
    intros [= <-]. destruct (IH _ _ Hrec) as (k & Hk & Hok & Habove).
    exists (S k). split_and!; [lia | done |].
    intros [|i] Hi; [split; [done | by exists e] | apply Habove; lia].
Qed.

End FindRepo.

(** X1: [findRepo] returns the repository of the nearest enclosing
    directory: if [git.PlainOpen] fails on the start directory and on each of
    its ancestors below the [k]-th, none of which is the root, and succeeds on
    the [k]-th, then with a recursion bound above [k] the result is that
    repository, without error. *)
Theorem findRepo_nearest
    (h : Locating) (k : nat) (path : string) (depth : nat) (repo : OpenedRepository) :
  (forall i, (i < k)%nat ->
     ancestor h i path <> "/" /\ notARepository h (ancestor h i path)) ->
  PlainOpen h (ancestor h k path) = Ok repo ->
  (k < depth)%nat ->
  findRepo h depth path = Some (Ok repo).
Proof. apply findRepo_nearest_aux. Qed.

Lemma findRepo_nearest_witness :
  findRepo (demoLocating (Some "/home/dev/src/tool")) 6 "/home/dev/src/tool/cmd"
  = Some (Ok demoOpened).
Proof.
  apply (findRepo_nearest (demoLocating (Some "/home/dev/src/tool")) 1
           "/home/dev/src/tool/cmd" 6 demoOpened).
  - intros i Hi. assert (i = O) as -> by lia.
    split; [discriminate | by eexists].
  - reflexivity.
  - lia.
Defined.

(** X2: when no directory from the start up to the root, [k] levels above,
    is a repository, [findRepo] stops at the root and returns an error with
    one "no git repository in" wrapping per directory visited, the outermost
    naming the start directory and the innermost holding the error of
    [git.PlainOpen] on the root. *)
Theorem findRepo_stops_at_root
    (h : Locating) (k : nat) (path : string) (depth : nat) :
  (forall i, (i < k)%nat -> ancestor h i path <> "/") ->
  ancestor h k path = "/" ->
  (forall i, (i <= k)%nat -> notARepository h (ancestor h i path)) ->
  (k < depth)%nat ->
  findRepo h depth path = Some (Err (noRepositoryError h k path)).
Proof. apply findRepo_root_aux. Qed.

Lemma findRepo_stops_at_root_witness :
  findRepo (demoLocating None) 3 "/home/dev"
  = Some (Err (Errorf "no git repository in %q: %w"
                 [OStr "/home/dev";
                  OErr (Errorf "no git repository in %q: %w"
                          [OStr "/home";
                           OErr (Errorf "no git repository in %q: %w"
                                   [OStr "/";
                                    OErr (ErrExt "repository does not exist")])])])).
Proof.
  apply (findRepo_stops_at_root (demoLocating None) 2 "/home/dev" 3).
  - intros i Hi. destruct i as [|[|i]]; [discriminate | discriminate | lia].
  - reflexivity.
  - intros i Hi. by eexists.
  - lia.
Defined.

(** X3: a repository returned by [findRepo] is the one of the start
    directory or of one of its ancestors, and [git.PlainOpen] failed on every
    directory below it, none of which is the root: the search never goes past
    a repository nor above the root. *)
Theorem findRepo_sound
    (h : Locating) (depth : nat) (path : string) (repo : OpenedRepository) :
  findRepo h depth path = Some (Ok repo) ->
  exists k,
    (k < depth)%nat /\
    PlainOpen h (ancestor h k path) = Ok repo /\
    forall i, (i < k)%nat ->
      ancestor h i path <> "/" /\ notARepository h (ancestor h i path).
Proof. apply findRepo_sound_aux. Qed.

Lemma findRepo_sound_witness :
  exists k,
    (k < 6)%nat /\
    PlainOpen (demoLocating (Some "/home/dev/src/tool"))
      (ancestor (demoLocating (Some "/home/dev/src/tool")) k "/home/dev/src/tool/cmd")
    = Ok demoOpened /\
    forall i, (i < k)%nat ->
      ancestor (demoLocating (Some "/home/dev/src/tool")) i "/home/dev/src/tool/cmd"
      <> "/"
      /\ notARepository (demoLocating (Some "/home/dev/src/tool"))
           (ancestor (demoLocating (Some "/home/dev/src/tool")) i
              "/home/dev/src/tool/cmd").
Proof.
  apply (findRepo_sound (demoLocating (Some "/home/dev/src/tool")) 6
           "/home/dev/src/tool/cmd" demoOpened).
  reflexivity.
Defined.

(** More room for the recursion does not change a result. *)
Lemma findRepo_depth_mono h depth :
  forall path r more,
    findRepo h depth path = Some r -> findRepo h (depth + more) path = Some r.
Proof.
  induction depth as [|depth IH]; intros path r more; [done|].
  cbn [findRepo Nat.add].
  destruct (PlainOpen h path) as [repo|e]; [done|].
  destruct (negb (String.eqb path "/")); [|done].
  destruct (findRepo h depth (filepath_Dir h path)) as [r'|] eqn:Hrec; [|done].
  by rewrite (IH _ _ more Hrec).
Qed.

(** ** [getProjectFromOrigin] *)

Lemma findProjectLoop_first pre p post projectPath :
  "/" +:+ PathWithNamespace p = projectPath ->
  (forall q, q ∈ pre -> "/" +:+ PathWithNamespace q <> projectPath) ->
  findProjectLoop (pre ++ p :: post) projectPath = Some p.
Proof.
  intros Hp. induction pre as [|q pre IH]; intros Hpre; cbn [app findProjectLoop].
  - apply String.eqb_eq in Hp. by rewrite Hp.
  - pose proof (Hpre q ltac:(by left)) as Hq. apply String.eqb_neq in Hq.
    rewrite Hq. apply IH. intros q' Hq'. apply Hpre. by right.
Qed.

Lemma findProjectLoop_none projects projectPath :
  (forall q, q ∈ projects -> "/" +:+ PathWithNamespace q <> projectPath) ->
  findProjectLoop projects projectPath = None.
Proof.
  induction projects as [|q projects IH]; intros Hnone; [done|].
  cbn [findProjectLoop].
  pose proof (Hnone q ltac:(by left)) as Hq. apply String.eqb_neq in Hq.
  rewrite Hq. apply IH. intros q' Hq'. apply Hnone. by right.
Qed.

Lemma findProjectLoop_sound projects projectPath p :
  findProjectLoop projects projectPath = Some p ->
  p ∈ projects /\ "/" +:+ PathWithNamespace p = projectPath.
Proof.
  induction projects as [|q projects IH]; [done|]. cbn [findProjectLoop].
  destruct (String.eqb_spec ("/" +:+ PathWithNamespace q) projectPath) as [Heq|Hne].
  - intros [= <-]. split; [by left | done].
  - intros Hrec. destruct (IH Hrec). split; [by right | done].
Qed.

(** The project path of an origin whose path is a slash, [pwn] and an
    optional [.git]. *)
Lemma projectPath_of_origin originURL pwn :
  URL_Path originURL = "/" +:+ pwn +:+ ".git"
  \/ (URL_Path originURL = "/" +:+ pwn
      /\ strings.HasSuffix (URL_Path originURL) ".git" = false) ->
  strings.TrimSuffix (URL_Path originURL) ".git" = "/" +:+ pwn.
Proof.
  intros [->|[Hpath Hsuffix]].
  - change ("/" +:+ pwn +:+ ".git") with (("/" +:+ pwn) +:+ ".git").
    apply TrimSuffix_append.
  - by rewrite TrimSuffix_absent.
Qed.

(** X4: for an origin URL whose path is ["/<pwn>.git"], or ["/<pwn>"] not
    ending in [.git], [getProjectFromOrigin] searches by the base name of
    ["/<pwn>"] and returns, without error, the first project of the search
    result whose path with namespace is exactly [pwn]; search hits listed
    before it with another path are passed over. *)
Theorem getProjectFromOrigin_first_exact_match
    (h : Locating) (cli : NewClient_) (originURL : URL) (pwn : string)
    (pre : list SearchedProject) (p : SearchedProject) (post : list SearchedProject) :
  URL_Path originURL = "/" +:+ pwn +:+ ".git"
  \/ (URL_Path originURL = "/" +:+ pwn
      /\ strings.HasSuffix (URL_Path originURL) ".git" = false) ->
  ListProjects cli (filepath_Base h ("/" +:+ pwn)) = Ok (pre ++ p :: post) ->
  PathWithNamespace p = pwn ->
  (forall q, q ∈ pre -> PathWithNamespace q <> pwn) ->
  getProjectFromOrigin h cli originURL = (Some p, None).
Proof.
  intros Hpath Hlist Hp Hpre. unfold getProjectFromOrigin.
  rewrite (projectPath_of_origin _ _ Hpath), Hlist.
  rewrite findProjectLoop_first; [done | by rewrite Hp |].
  intros q Hq Heq. apply (Hpre q Hq). by apply append_inj_l in Heq.
Qed.

Lemma getProjectFromOrigin_first_exact_match_witness :
  getProjectFromOrigin (demoLocating None) demoNewClient
    {| URL_Host := "gitlab.example"; URL_Path := "/dev/tool.git" |}
  = (Some {| PathWithNamespace := "dev/tool";
             HTTPURLToRepo := "https://gitlab.example/dev/tool.git";
             asProject := demoProject |},
     None).
Proof.
  apply (getProjectFromOrigin_first_exact_match (demoLocating None) demoNewClient
           {| URL_Host := "gitlab.example"; URL_Path := "/dev/tool.git" |}
           "dev/tool"
           [ {| PathWithNamespace := "ops/tool";
                HTTPURLToRepo := "https://gitlab.example/ops/tool.git";
                asProject :=
                  {| Project_ID := 4; Project_Name := "tool";
                     Project_DefaultBranch := "main" |} |} ]
           _ []).
  - left. reflexivity.
  - reflexivity.
  - reflexivity.
  - intros q Hq. apply list_elem_of_singleton in Hq as ->. discriminate.
Defined.

(** X5: when the search succeeds but no project of its result has exactly
    the path of the origin (an empty result included),
    [getProjectFromOrigin] returns no project and the error "could not find
    project": a project with the same name under another namespace is never
    taken instead. *)
Theorem getProjectFromOrigin_not_found
    (h : Locating) (cli : NewClient_) (originURL : URL) (pwn : string)
    (projects : list SearchedProject) :
  URL_Path originURL = "/" +:+ pwn +:+ ".git"
  \/ (URL_Path originURL = "/" +:+ pwn
      /\ strings.HasSuffix (URL_Path originURL) ".git" = false) ->
  ListProjects cli (filepath_Base h ("/" +:+ pwn)) = Ok projects ->
  (forall q, q ∈ projects -> PathWithNamespace q <> pwn) ->
  getProjectFromOrigin h cli originURL
  = (None, Some (Errorf "could not find project" [])).
Proof.
  intros Hpath Hlist Hnone. unfold getProjectFromOrigin.
  rewrite (projectPath_of_origin _ _ Hpath), Hlist.
  rewrite findProjectLoop_none; [done|].
  intros q Hq Heq. apply (Hnone q Hq). by apply append_inj_l in Heq.
Qed.

Lemma getProjectFromOrigin_not_found_witness :
  getProjectFromOrigin (demoLocating None) demoNewClient
    {| URL_Host := "gitlab.example"; URL_Path := "/qa/tool.git" |}
  = (None, Some (Errorf "could not find project" [])).
Proof.
  apply (getProjectFromOrigin_not_found (demoLocating None) demoNewClient
           {| URL_Host := "gitlab.example"; URL_Path := "/qa/tool.git" |}
           "qa/tool" demoSearched).
  - left. reflexivity.
  - reflexivity.
  - intros q Hq. unfold demoSearched in Hq. rewrite !elem_of_cons in Hq.
    destruct Hq as [->|[->|Hq]]; [discriminate | discriminate |].
    by apply elem_of_nil in Hq.
Defined.

Lemma getProjectFromOrigin_sound h cli originURL p :
  getProjectFromOrigin h cli originURL = (Some p, None) ->
  exists projects,
    ListProjects cli
      (filepath_Base h (strings.TrimSuffix (URL_Path originURL) ".git"))
    = Ok projects /\
    p ∈ projects /\
    "/" +:+ PathWithNamespace p = strings.TrimSuffix (URL_Path originURL) ".git".
Proof.
  unfold getProjectFromOrigin.
  destruct (ListProjects cli _) as [projects|e] eqn:Hlist; [|done].
  destruct (findProjectLoop projects _) as [q|] eqn:Hloop; [|done].
  intros [= <-]. exists projects. split; [done|].
  by apply findProjectLoop_sound.
Qed.

Lemma findProjectLoop_inv projects projectPath p :
  findProjectLoop projects projectPath = Some p ->
  exists pre post,
    projects = pre ++ p :: post /\
    "/" +:+ PathWithNamespace p = projectPath /\
    forall q, q ∈ pre -> "/" +:+ PathWithNamespace q <> projectPath.
Proof.
  induction projects as [|q projects IH]; [done|]. cbn [findProjectLoop].
  destruct (String.eqb_spec ("/" +:+ PathWithNamespace q) projectPath) as [Heq|Hne].
  - intros [= <-]. exists [], projects. split_and!; [done | done |].
    intros q' Hq'. by apply elem_of_nil in Hq'.
  - intros Hrec. destruct (IH Hrec) as (pre & post & -> & Hp & Hpre).
    exists (q :: pre), post. split_and!; [done | done |].
    intros q' Hq'. apply elem_of_cons in Hq' as [->|Hq']; [done | by apply Hpre].
Qed.

(** A project returned without error is the first exact match of the search
    result. *)
Lemma getProjectFromOrigin_first h cli originURL p :
  getProjectFromOrigin h cli originURL = (Some p, None) ->
  exists pre post,
    ListProjects cli
      (filepath_Base h (strings.TrimSuffix (URL_Path originURL) ".git"))
    = Ok (pre ++ p :: post) /\
    "/" +:+ PathWithNamespace p = strings.TrimSuffix (URL_Path originURL) ".git" /\
    forall q, q ∈ pre ->
      "/" +:+ PathWithNamespace q <> strings.TrimSuffix (URL_Path originURL) ".git".
Proof.
  unfold getProjectFromOrigin.
  destruct (ListProjects cli _) as [projects|e] eqn:Hlist; [|done].
  destruct (findProjectLoop projects _) as [q|] eqn:Hloop; [|done].
  intros [= <-].
  destruct (findProjectLoop_inv _ _ _ Hloop) as (pre & post & -> & Hp & Hpre).
  by exists pre, post.
Qed.

(** ** The first lines of [main] *)

(** X6: when the first lines of [main] hand over to the rest, the
    repository is the nearest enclosing one of the working directory, the
    origin is the first URL of its remote "origin", the client was made with
    the token of [GITLAB_TOKEN] for the https URL of the origin's host with
    path [/api/v4] (whatever the scheme of the origin), the project is the
    first hit, in the result of that client's search by the base name of the
    origin's path without [.git], whose path is that path, and nothing was
    done but logging the origin and the project. *)
Theorem mainLocate_hands_over
    (h : Locating) (w : World) (depth : nat) (st : St) (l : Located) (st' : St) :
  mainLocate h w depth st = Some (Continue l, st') ->
  exists cwd k repo origin urls originURL cli pre p post,
    filepath_Abs h "." = Ok cwd /\
    PlainOpen h (ancestor h k cwd) = Ok repo /\
    (forall i, (i < k)%nat -> notARepository h (ancestor h i cwd)) /\
    Remote_URLs repo "origin" = Ok (origin :: urls) /\
    url_Parse h origin = Ok originURL /\
    NewClient h (Getenv w "GITLAB_TOKEN")
      (URL_String h "https" (URL_Host originURL) "/api/v4") = Ok cli /\
    ListProjects cli
      (filepath_Base h (strings.TrimSuffix (URL_Path originURL) ".git"))
    = Ok (pre ++ p :: post) /\
    (forall q, q ∈ pre ->
       "/" +:+ PathWithNamespace q <> strings.TrimSuffix (URL_Path originURL) ".git") /\
    "/" +:+ PathWithNamespace p = strings.TrimSuffix (URL_Path originURL) ".git" /\
    l = {| located_repo := asRepository repo;
           located_client := {| gitlab := asClient cli |};
           located_project := asProject p |} /\
    files st' = files st /\
    trace st'
    = trace st ++ [EvLog "Origin URL: %s" [OStr origin];
                   EvLog "Found project: %s" [OStr (HTTPURLToRepo p)]].
Proof.
  unfold mainLocate.
  destruct (filepath_Abs h ".") as [cwd|e] eqn:Habs; [|done].
  destruct (findRepo h depth cwd) as [[repo|e]|] eqn:Hfind; [|done..].
  destruct (Remote_URLs repo "origin") as [[|origin urls]|e] eqn:Hremote; [done| |done].
  destruct (url_Parse h origin) as [originURL|e] eqn:Hparse; [|done].
  destruct (NewClient h _ _) as [cli|e] eqn:Hnew; [|done].
  destruct (getProjectFromOrigin h cli originURL) as [[p|] [e|]] eqn:Hproject;
    [done | | done | done].
  intros [= <- <-].
  destruct (findRepo_sound_aux h depth cwd repo Hfind) as (k & _ & Hopen & Habove).
  destruct (getProjectFromOrigin_first h cli originURL p Hproject)
    as (pre & post & Hlist & Hpath & Hpre).
  exists cwd, k, repo, origin, urls, originURL, cli, pre, p, post.
  split_and!; try done.
  - intros i Hi. by apply Habove.
  - cbn. by rewrite <- app_assoc.
Qed.

Lemma mainLocate_hands_over_witness :
  exists cwd k repo origin urls originURL cli pre p post,
    filepath_Abs (demoLocating (Some "/home/dev/src/tool")) "." = Ok cwd /\
    PlainOpen (demoLocating (Some "/home/dev/src/tool"))
      (ancestor (demoLocating (Some "/home/dev/src/tool")) k cwd) = Ok repo /\
    (forall i, (i < k)%nat ->
       notARepository (demoLocating (Some "/home/dev/src/tool"))
         (ancestor (demoLocating (Some "/home/dev/src/tool")) i cwd)) /\
    Remote_URLs repo "origin" = Ok (origin :: urls) /\
    url_Parse (demoLocating (Some "/home/dev/src/tool")) origin = Ok originURL /\
    NewClient (demoLocating (Some "/home/dev/src/tool"))
      (Getenv (plainWorld typeIssue) "GITLAB_TOKEN")
      (URL_String (demoLocating (Some "/home/dev/src/tool")) "https"
         (URL_Host originURL) "/api/v4") = Ok cli /\
    ListProjects cli
      (filepath_Base (demoLocating (Some "/home/dev/src/tool"))
         (strings.TrimSuffix (URL_Path originURL) ".git"))
    = Ok (pre ++ p :: post) /\
    (forall q, q ∈ pre ->
       "/" +:+ PathWithNamespace q <> strings.TrimSuffix (URL_Path originURL) ".git") /\
    "/" +:+ PathWithNamespace p = strings.TrimSuffix (URL_Path originURL) ".git" /\
    {| located_repo := demoRepository None;
       located_client := demoClient demoMilestones None;
       located_project := demoProject |}
    = {| located_repo := asRepository repo;
         located_client := {| gitlab := asClient cli |};
         located_project := asProject p |} /\
    files (emit (EvLog "Found project: %s" [OStr "https://gitlab.example/dev/tool.git"])
             (emit (EvLog "Origin URL: %s" [OStr demoOrigin]) demoSt))
    = files demoSt /\
    trace (emit (EvLog "Found project: %s" [OStr "https://gitlab.example/dev/tool.git"])
             (emit (EvLog "Origin URL: %s" [OStr demoOrigin]) demoSt))
    = trace demoSt ++ [EvLog "Origin URL: %s" [OStr origin];
                       EvLog "Found project: %s" [OStr (HTTPURLToRepo p)]].
Proof.
  apply (mainLocate_hands_over (demoLocating (Some "/home/dev/src/tool"))
           (plainWorld typeIssue) 6 demoSt).
  reflexivity.
Defined.

(** ** More on [getEditor] *)


(** X8: [getEditor] returns the empty string without error exactly when
    [GIT_EDITOR] is empty or unset and the loaded configuration has a
    [core.editor] option whose value is empty: an empty [core.editor] is not
    skipped in favour of [VISUAL], [EDITOR] or ["vi"]. *)
Theorem getEditor_empty_iff (w : World) (repository : Repository) :
  getEditor w repository = ("", None) <->
  Getenv w "GIT_EDITOR" = ""
  /\ exists cfg,
       ConfigScoped repository GlobalScope = Ok cfg /\ coreEditor cfg = Some "".
Proof.
  unfold getEditor, coreEditor.
  destruct (String.eqb_spec (Getenv w "GIT_EDITOR") "") as [Hg|Hg]; cbn [negb].
  - destruct (ConfigScoped repository GlobalScope) as [cfg|e].
    + destruct (_ && _) eqn:Hcore.
      * split.
        -- intros [= Hv]. split; [done|]. exists cfg. by rewrite Hcore, Hv.
        -- intros [_ (cfg' & [= <-] & Hv)]. rewrite Hcore in Hv. by injection Hv as ->.
      * split; [|intros [_ (cfg' & [= <-] & Hv)]; by rewrite Hcore in Hv].
        destruct (String.eqb_spec (Getenv w "VISUAL") "") as [Hv|Hv]; cbn [negb];
          [|by intros [= ?]].
        destruct (String.eqb_spec (Getenv w "EDITOR") "") as [He|He]; cbn [negb];
          by intros [= ?].
    + split; [done | by intros [_ (cfg' & [=] & _)]].
  - split; [by intros [= ?] | by intros [? _]].
Qed.

(** ** The label and milestone lists *)

Lemma fold_left_snoc {A B} (f : A -> B) (l : list A) (acc : list B) :
  fold_left (fun acc x => acc ++ [f x]) l acc = acc ++ (f <$> l).
Proof.
  revert acc. induction l as [|x l IH]; intros acc; cbn [fold_left].
  - by rewrite app_nil_r.
  - by rewrite IH, fmap_cons, <- app_assoc.
Qed.

(** X9: [getIssueLabels] and [getIssueMilestones] return one entry per
    entry of the service's answer, in its order, with the id, name and
    description (for a milestone: the id, and the title as name) copied; only
    the milestones in state "active" are asked for.  When the service fails
    the list is empty and the error is passed on as it is. *)
Theorem getIssueLabels_getIssueMilestones_copy (c : gitlabClient) (project : Project) :
  getIssueLabels c project
  = match ListLabels (gitlab c) (Project_ID project) with
    | Ok labels =>
        ((fun label => {| label_ID := Label_ID label;
                          label_Name := Label_Name label;
                          label_Description := Label_Description label |}) <$> labels,
         None)
    | Err e => ([], Some e)
    end
  /\ getIssueMilestones c project
     = match ListMilestones (gitlab c) (Project_ID project) "active" with
       | Ok milestones =>
           ((fun milestone => {| milestone_ID := Milestone_ID milestone;
                                 milestone_Name := Milestone_Title milestone |})
              <$> milestones,
            None)
       | Err e => ([], Some e)
       end.
Proof.
  unfold getIssueLabels, getIssueMilestones. split.
  - destruct (ListLabels _ _); [|done].
    by rewrite (fold_left_snoc
                  (fun label => {| label_ID := Label_ID label;
                                   label_Name := Label_Name label;
                                   label_Description := Label_Description label |})).
  - destruct (ListMilestones _ _ _); [|done].
    by rewrite (fold_left_snoc
                  (fun milestone => {| milestone_ID := Milestone_ID milestone;
                                       milestone_Name := Milestone_Title milestone |})).
Qed.

(** ** The command line of the editor *)

Lemma prefix_true sep :
  forall s, String.prefix sep s = true -> s = sep +:+ strings.drop (String.length sep) s.
Proof.
  induction sep as [|a sep IH]; intros s; [by destruct s|].
  destruct s as [|b s]; [done|]. cbn [String.prefix].
  destruct (ascii_dec a b) as [<-|]; [|done].
  intros H. rewrite append_cons. cbn [String.length strings.drop]. by rewrite <- IH.
Qed.

Lemma Index_split s sep :
  forall m,
    strings.Index s sep = Some m ->
    s = strings.take m s +:+ sep +:+ strings.drop (m + String.length sep) s.
Proof.
  induction s as [|a s IH]; intros m; cbn [strings.Index].
  - destruct (String.prefix sep "") eqn:Hp; [|done].
    intros [= <-]. by apply prefix_true in Hp.
  - destruct (String.prefix sep (String a s)) eqn:Hp.
    + intros [= <-]. by apply prefix_true in Hp.
    + destruct (strings.Index s sep) as [m'|]; [|done].
      intros [= <-]. cbn [strings.take Nat.add strings.drop].
      rewrite append_cons. by rewrite <- IH.
Qed.

Lemma genSplit_nonempty n s sep : strings.genSplit (S n) s sep <> [].
Proof. cbn [strings.genSplit]. destruct n; [done|]. by destruct (strings.Index s sep). Qed.

Lemma genSplit_step n s sep :
  strings.genSplit (S (S n)) s sep
  = match strings.Index s sep with
    | None => [s]
    | Some m =>
        strings.take m s
        :: strings.genSplit (S n) (strings.drop (m + String.length sep) s) sep
    end.
Proof. reflexivity. Qed.

Lemma concat_cons2 sep x y l :
  String.concat sep (x :: y :: l) = x +:+ sep +:+ String.concat sep (y :: l).
Proof. reflexivity. Qed.

(** Joining the pieces with the separator gives the string back. *)
Lemma genSplit_concat sep n :
  forall s, String.concat sep (strings.genSplit (S n) s sep) = s.
Proof.
  induction n as [|n IH]; intros s; [done|].
  rewrite genSplit_step.
  destruct (strings.Index s sep) as [m|] eqn:Hm; [|done].
  pose proof (genSplit_nonempty n (strings.drop (m + String.length sep) s) sep) as Hne.
  specialize (IH (strings.drop (m + String.length sep) s)).
  destruct (strings.genSplit (S n) _ sep) as [|piece rest]; [done|].
  rewrite concat_cons2, IH.
  symmetry. by apply Index_split.
Qed.

Lemma prefix_char_cons c a s :
  String.prefix (String c "") (String a s) = bool_decide (a = c).
Proof.
  cbn [String.prefix]. destruct (ascii_dec c a) as [<-|Hne].
  - rewrite bool_decide_eq_true_2 by done. by destruct s.
  - rewrite bool_decide_eq_false_2; [done | congruence].
Qed.

Lemma Index_char_none c s :
  strings.Index s (String c "") = None -> without c s.
Proof.
  unfold without. induction s as [|a s IH]; cbn [strings.Index list_ascii_of_string].
  - intros _. apply not_elem_of_nil.
  - rewrite prefix_char_cons. case_bool_decide as Ha; [done|].
    destruct (strings.Index s (String c "")); [done|]. intros _.
    apply not_elem_of_cons. split; [congruence | by apply IH].
Qed.

Lemma Index_char_some c s :
  forall m,
    strings.Index s (String c "") = Some m ->
    without c (strings.take m s) /\ (m < String.length s)%nat.
Proof.
  unfold without. induction s as [|a s IH]; intros m; cbn [strings.Index]; [done|].
  rewrite prefix_char_cons. case_bool_decide as Ha.
  - intros [= <-]. cbn. split; [apply not_elem_of_nil | lia].
  - destruct (strings.Index s (String c "")) as [m'|]; [|done].
    intros [= <-]. destruct (IH m' eq_refl) as [Hw Hlt].
    cbn [strings.take list_ascii_of_string String.length]. split; [|lia].
    apply not_elem_of_cons. split; [congruence | done].
Qed.

Lemma length_drop i : forall s, String.length (strings.drop i s) = (String.length s - i)%nat.
Proof.
  induction i as [|i IH]; intros s; cbn [strings.drop]; [lia|].
  destruct s as [|a s]; [done|]. cbn [String.length]. by rewrite IH.
Qed.

(** With room for every piece, no piece holds the separating byte. *)
Lemma genSplit_without c n :
  forall s, (String.length s < n)%nat ->
    Forall (without c) (strings.genSplit n s (String c "")).
Proof.
  induction n as [|n IH]; intros s Hlen; [lia|].
  destruct n as [|n].
  - destruct s; [|cbn in Hlen; lia].
    apply Forall_singleton. unfold without. cbn. apply not_elem_of_nil.
  - rewrite genSplit_step.
    destruct (strings.Index s (String c "")) as [m|] eqn:Hm.
    + destruct (Index_char_some c s m Hm) as [Hw Hlt].
      apply Forall_cons. split; [done|].
      apply IH. rewrite length_drop. cbn [String.length]. lia.
    + apply Forall_singleton. by apply Index_char_none.
Qed.

Lemma execCalls_app tr1 tr2 : execCalls (tr1 ++ tr2) = execCalls tr1 ++ execCalls tr2.
Proof. apply omap_app. Qed.

(** X10: once the draft is written and synced and the editor string is
    resolved, [createIssueFromTemplate] runs exactly one command: the words of
    the editor string followed by the name of the draft.  The words are what
    splitting at every single space gives: there is at least one word, no word
    holds a space, and the words joined by single spaces are the editor
    string; so quotes and backslashes have no effect, and two spaces in a row
    give an empty word. *)
Theorem editor_command_line
    (w : World) (c : gitlabClient) (repository : Repository) (project : Project)
    (template : issueTemplate) (st : St) (file editor : string) :
  TempFile w "" (draftPattern project template) = Ok file ->
  Write_fault w file = None ->
  Sync w file = None ->
  getEditor w repository = (editor, None) ->
  exists words,
    execCalls (trace (createIssueFromTemplate w c repository project template st).2)
    = execCalls (trace st) ++ [words ++ [file]]
    /\ words <> []
    /\ Forall (without " ") words
    /\ String.concat " " words = editor.
Proof.
  intros Htmp Hwr Hsy Hge. exists (strings.Split editor " ").
  split_and!.
  - unfold draftPattern in Htmp.
    unfold createIssueFromTemplate, ioutil_TempFile. rewrite Htmp.
    unfold File_Write. rewrite Hwr, Hsy, Hge.
    unfold cmd_Run. cbn [files emit set_files trace].
    assert (Hexec : forall tr argv,
              execCalls ((tr ++ [EvExec argv])) = execCalls tr ++ [argv]).
    { intros tr argv. by rewrite execCalls_app. }
    destruct (Run w _ _) as [f' rerr].
    destruct rerr; [apply Hexec|].
    unfold ioutil_ReadFile. destruct (ReadFile_fault w file); [apply Hexec|].
    cbn [files set_files emit trace].
    destruct (f' !! file) as [content|]; [|apply Hexec].
    destruct (decide _); [apply Hexec|].
    destruct (strings.SplitN _ _ _) as [|title more]; [apply Hexec|].
    destruct (_ =? _)%nat; [apply Hexec|].
    unfold Issues_CreateIssue.
    destruct (CreateIssue _ _ _ _) as [issue [err|]].
    { cbn [snd emit afterEdit trace files set_files].
      rewrite !execCalls_app. cbn [execCalls omap]. by rewrite !app_nil_r. }
    unfold os_Remove. destruct (Remove_fault w file); [|destruct (_ !! file)];
      cbn [snd emit afterEdit trace files set_files];
      rewrite !execCalls_app; cbn [execCalls omap]; by rewrite !app_nil_r.
  - apply genSplit_nonempty.
  - apply genSplit_without. lia.
  - apply genSplit_concat.
Qed.

Lemma editor_command_line_witness :
  exists words,
    execCalls (trace (createIssueFromTemplate (plainWorld typeIssue)
                        (demoClient demoMilestones None) (demoRepository None)
                        demoProject BLANK demoSt).2)
    = execCalls (trace demoSt) ++ [words ++ [demoDraft]]
    /\ words <> []
    /\ Forall (without " ") words
    /\ String.concat " " words = "nano -w".
Proof.
  apply (editor_command_line (plainWorld typeIssue) (demoClient demoMilestones None)
           (demoRepository None) demoProject BLANK demoSt demoDraft "nano -w");
    reflexivity.
Defined.

(** ** What a creation call and a nil error stand for *)

Lemma SplitN_2_inv s title more :
  strings.SplitN s nl 2 = title :: more ->
  oneLine title
  /\ ((exists description, more = [description] /\ s = title +:+ nl +:+ description)
      \/ (more = [] /\ s = title)).
Proof.
  destruct (first_line_cases s) as [Hone|(t & d & -> & Hone)].
  - rewrite SplitN_no_newline by done. intros [= <- <-]. split; [done | by right].
  - rewrite SplitN_first_newline by done. intros [= <- <-].
    split; [done | left; by exists d].
Qed.

(** A run of the later [createIssueFromTemplate] either ends early with an
    error, having created and removed nothing, or comes out of an editing
    session with a changed content whose first line is not empty, and then
    makes the creation call. *)
Lemma createIssue_cases w c repository project template st :
  (is_Some (createIssueFromTemplate w c repository project template st).1.2
   /\ createCalls (trace (createIssueFromTemplate w c repository project template st).2)
      = createCalls (trace st)
   /\ removeCalls (trace (createIssueFromTemplate w c repository project template st).2)
      = removeCalls (trace st))
  \/ exists file argv issueContent f' title description,
       edited w repository (draftPattern project template) template (files st)
         file argv issueContent f' /\
       issueContent <> prepopulated template /\
       title <> "" /\ oneLine title /\
       (string_of_bytes issueContent = title +:+ nl +:+ description
        \/ (string_of_bytes issueContent = title /\ description = "")).
Proof.
  assert (Hlog : forall argv,
            createCalls (trace st ++ [EvExec argv]) = createCalls (trace st)
            /\ removeCalls (trace st ++ [EvExec argv]) = removeCalls (trace st)).
  { intros argv. rewrite createCalls_app, removeCalls_app. cbn.
    by rewrite !app_nil_r. }
  unfold createIssueFromTemplate, ioutil_TempFile.
  destruct (TempFile w "" _) as [file|e] eqn:Htmp; [|left; split; [by eexists|done]].
  unfold File_Write.
  destruct (Write_fault w file) eqn:Hwr; [left; split; [by eexists|done]|].
  destruct (Sync w file) eqn:Hsy; [left; split; [by eexists|done]|].
  destruct (getEditor w repository) as [editor [e|]] eqn:Hge;
    [left; split; [by eexists|done]|].
  unfold cmd_Run. cbn [files emit set_files trace].
  destruct (Run w _ _) as [f' rerr] eqn:Hrun.
  destruct rerr; [left; split; [by eexists | apply Hlog]|].
  unfold ioutil_ReadFile.
  destruct (ReadFile_fault w file) eqn:Hrf; [left; split; [by eexists | apply Hlog]|].
  cbn [files set_files emit trace].
  destruct (f' !! file) as [content|] eqn:Hrd; [|left; split; [by eexists | apply Hlog]].
  destruct (decide _) as [Hsame|Hdiff]; [left; split; [by eexists | apply Hlog]|].
  destruct (strings.SplitN _ _ _) as [|title more] eqn:Hsplit;
    [left; split; [by eexists | apply Hlog]|].
  destruct (String.length title =? 0)%nat eqn:Hlen;
    [left; split; [by eexists | apply Hlog]|].
  right. apply SplitN_2_inv in Hsplit as [Hone Hsplit].
  exists file, (strings.Split editor " " ++ [file]), content, f', title.
  exists (match more with [] => "" | d :: _ => d end).
  split_and!; [ | done | | done | ].
  - unfold edited, draftFiles. split_and!; try done. by exists editor.
  - intros ->. done.
  - destruct Hsplit as [(d & -> & ->)|[-> ->]]; [by left | by right].
Qed.

(** X11: the later [createIssueFromTemplate] makes at most one creation
    call, and only out of an editing session that went through: the draft was
    read back changed, the title sent is its first line, which is neither
    empty nor holds a line feed, and the description is the rest. *)
Theorem creation_call_comes_from_changed_draft
    (w : World) (c : gitlabClient) (repository : Repository) (project : Project)
    (template : issueTemplate) (st : St) :
  createCalls (trace (createIssueFromTemplate w c repository project template st).2)
  = createCalls (trace st)
  \/ exists file argv issueContent f' title description,
       edited w repository (draftPattern project template) template (files st)
         file argv issueContent f' /\
       issueContent <> prepopulated template /\
       title <> "" /\ oneLine title /\
       (string_of_bytes issueContent = title +:+ nl +:+ description
        \/ (string_of_bytes issueContent = title /\ description = "")) /\
       createCalls
         (trace (createIssueFromTemplate w c repository project template st).2)
       = createCalls (trace st) ++ [(Project_ID project, title, description)].
Proof.
  destruct (createIssue_cases w c repository project template st)
    as [(_ & Hcreate & _)|(file & argv & content & f' & title & description
                           & Hsession & Hdiff & Hne & Hone & Hsplit)];
    [by left|].
  right. exists file, argv, content, f', title, description.
  split_and!; try done.
  rewrite (createIssue_submits _ _ _ _ _ _ _ _ _ _ Hsession _ _ Hdiff Hne Hone Hsplit).
  cbn zeta. destruct (CreateIssue _ _ _ _) as [issue [err|]].
  - cbn [snd emit afterEdit trace].
    rewrite !createCalls_app. cbn. by rewrite app_nil_r.
  - unfold os_Remove.
    destruct (Remove_fault w file); [|destruct (_ !! file)];
      cbn [snd emit afterEdit trace set_files];
      rewrite !createCalls_app; cbn; by rewrite !app_nil_r.
Qed.

(** X12: when the later [createIssueFromTemplate] returns no error, the
    creation call was made once and succeeded, the issue returned is the one
    the call gave, the draft was removed after it, and the draft is no longer
    on disk. *)
Theorem nil_error_means_created_and_removed
    (w : World) (c : gitlabClient) (repository : Repository) (project : Project)
    (template : issueTemplate) (st : St) :
  (createIssueFromTemplate w c repository project template st).1.2 = None ->
  exists file title description,
    TempFile w "" (draftPattern project template) = Ok file /\
    CreateIssue (gitlab c) (Project_ID project) title description
    = ((createIssueFromTemplate w c repository project template st).1.1, None) /\
    createCalls (trace (createIssueFromTemplate w c repository project template st).2)
    = createCalls (trace st) ++ [(Project_ID project, title, description)] /\
    removeCalls (trace (createIssueFromTemplate w c repository project template st).2)
    = removeCalls (trace st) ++ [file] /\
    files (createIssueFromTemplate w c repository project template st).2 !! file = None.
Proof.
  destruct (createIssue_cases w c repository project template st)
    as [([e He] & _)|(file & argv & content & f' & title & description
                      & Hsession & Hdiff & Hne & Hone & Hsplit)];
    [by rewrite He|].
  rewrite (createIssue_submits _ _ _ _ _ _ _ _ _ _ Hsession _ _ Hdiff Hne Hone Hsplit).
  cbn zeta. destruct (CreateIssue _ _ _ _) as [issue [err|]] eqn:Hcreate; [done|].
  unfold os_Remove. destruct (Remove_fault w file); [done|].
  cbn [files emit afterEdit trace].
  destruct (f' !! file) eqn:Hfile; [|done]. intros _.
  exists file, title, description.
  destruct Hsession as (Htmp & _).
  split_and!; [done | done | | |].
  - cbn. rewrite !createCalls_app. cbn. by rewrite !app_nil_r.
  - cbn. rewrite !removeCalls_app. cbn. by rewrite !app_nil_r.
  - cbn. apply lookup_delete_eq.
Qed.

Lemma nil_error_means_created_and_removed_witness :
  exists file title description,
    TempFile (plainWorld typeIssue) "" (draftPattern demoProject BLANK) = Ok file /\
    CreateIssue (gitlab (demoClient demoMilestones None)) (Project_ID demoProject)
      title description
    = ((createIssueFromTemplate (plainWorld typeIssue) (demoClient demoMilestones None)
          (demoRepository None) demoProject BLANK demoSt).1.1, None) /\
    createCalls
      (trace (createIssueFromTemplate (plainWorld typeIssue)
                (demoClient demoMilestones None) (demoRepository None) demoProject
                BLANK demoSt).2)
    = createCalls (trace demoSt) ++ [(Project_ID demoProject, title, description)] /\
    removeCalls
      (trace (createIssueFromTemplate (plainWorld typeIssue)
                (demoClient demoMilestones None) (demoRepository None) demoProject
                BLANK demoSt).2)
    = removeCalls (trace demoSt) ++ [file] /\
    files (createIssueFromTemplate (plainWorld typeIssue)
             (demoClient demoMilestones None) (demoRepository None) demoProject
             BLANK demoSt).2 !! file = None.
Proof.
  apply (nil_error_means_created_and_removed (plainWorld typeIssue)
           (demoClient demoMilestones None) (demoRepository None) demoProject BLANK
           demoSt).
  reflexivity.
Defined.

(** ** The earlier revision after an editing session *)

(** X13: in the earlier revision ([main.go]) the removal of the draft is
    deferred and its error dropped: when the creation call succeeds after an
    editing session, [createIssueFromTemplate] returns the created issue
    without error even though the removal fails, and the draft is then still
    on disk. *)
Theorem MainGo_removal_failure_is_silent
    (w : World) (c : gitlabClient) (repository : Repository) (project : Project)
    (template : issueTemplate) (st : St) (file : string) (argv : list string)
    (issueContent : bytes) (f' : fs) (title description : string)
    (issue : option Issue) (e : error) :
  edited w repository "*pre-submit.md" template (files st) file argv issueContent f' ->
  issueContent <> prepopulated template ->
  title <> "" -> oneLine title ->
  string_of_bytes issueContent = title +:+ nl +:+ description
  \/ (string_of_bytes issueContent = title /\ description = "") ->
  CreateIssue (gitlab c) (Project_ID project) title description = (issue, None) ->
  Remove_fault w file = Some e ->
  (MainGo.createIssueFromTemplate w c repository project template st).1 = (issue, None)
  /\ files (MainGo.createIssueFromTemplate w c repository project template st).2 !! file
     = Some issueContent
  /\ createCalls
       (trace (MainGo.createIssueFromTemplate w c repository project template st).2)
     = createCalls (trace st) ++ [(Project_ID project, title, description)].
Proof.
  intros (Htmp & Hwr & Hsy & (editor & Hge & ->) & Hrun & Hrf & Hrd)
         Hdiff Hne Hone Hsplit Hcreate Hremove.
  unfold draftFiles in Hrun.
  unfold MainGo.createIssueFromTemplate, ioutil_TempFile. rewrite Htmp.
  unfold File_Write. rewrite Hwr, Hsy, Hge.
  unfold cmd_Run. cbn [files emit set_files trace]. rewrite Hrun.
  unfold ioutil_ReadFile. rewrite Hrf. cbn [files emit set_files trace].
  rewrite Hrd, decide_False by done.
  assert (Hlen : (String.length title =? 0)%nat = false) by (by destruct title).
  unfold Issues_CreateIssue, os_Remove.
  destruct Hsplit as [->|[-> ->]].
  - rewrite SplitN_first_newline by done. rewrite Hlen. cbn [length Nat.eqb nth].
    rewrite Hcreate, Hremove. cbn. split_and!; [done | done |].
    rewrite !createCalls_app. cbn. by rewrite !app_nil_r.
  - rewrite SplitN_no_newline by done. rewrite Hlen. cbn [length Nat.eqb nth app].
    rewrite Hcreate, Hremove. cbn. split_and!; [done | done |].
    rewrite !createCalls_app. cbn. by rewrite !app_nil_r.
Qed.

Lemma MainGo_removal_failure_is_silent_witness :
  (MainGo.createIssueFromTemplate removalFailsWorld (demoClient demoMilestones None)
     (demoRepository None) demoProject BLANK demoSt).1 = (Some demoIssue, None)
  /\ files (MainGo.createIssueFromTemplate removalFailsWorld
              (demoClient demoMilestones None) (demoRepository None) demoProject
              BLANK demoSt).2 !! "/tmp/570542pre-submit.md"
     = Some (typeIssue (prepopulated BLANK))
  /\ createCalls
       (trace (MainGo.createIssueFromTemplate removalFailsWorld
                 (demoClient demoMilestones None) (demoRepository None) demoProject
                 BLANK demoSt).2)
     = createCalls (trace demoSt) ++ [(Project_ID demoProject, "Title", nl +:+ "Body text")].
Proof.
  apply (MainGo_removal_failure_is_silent removalFailsWorld
           (demoClient demoMilestones None) (demoRepository None) demoProject BLANK
           demoSt "/tmp/570542pre-submit.md"
           ["nano"; "-w"; "/tmp/570542pre-submit.md"]
           (typeIssue (prepopulated BLANK))
           (alter typeIssue "/tmp/570542pre-submit.md"
              (draftFiles (files demoSt) "/tmp/570542pre-submit.md" BLANK))
           "Title" (nl +:+ "Body text") (Some demoIssue)
           (ErrExt "operation not permitted")).
  - unfold edited. split_and!; try reflexivity. by exists "nano -w".
  - discriminate.
  - discriminate.
  - unfold oneLine. cbn. rewrite !not_elem_of_cons. repeat split; try discriminate.
    apply not_elem_of_nil.
  - left. reflexivity.
  - reflexivity.
  - reflexivity.
Defined.

(** ** [main] after the creation of the issue *)

Lemma setIssueLabelsMilestones_eq c project issue labels milestone st :
  setIssueLabelsMilestones c project issue labels milestone st
  = (UpdateIssue (gitlab c) (Project_ID project) (Issue_IID issue)
       (updatePayload labels milestone),
     emit (EvUpdateIssue (Project_ID project) (Issue_IID issue)
             (updatePayload labels milestone)) st).
Proof.
  unfold setIssueLabelsMilestones, Issues_UpdateIssue, updatePayload.
  rewrite labelNames_loop, app_nil_l.
  destruct (Z.eqb_spec (milestone_ID milestone) 0) as [Hz|Hz]; cbn [negb AddLabels].
  - by rewrite decide_True.
  - by rewrite decide_False.
Qed.

Lemma selectLabelsLoop_picks labels idxs picked :
  picks labels idxs picked ->
  forall acc st, selectLabelsLoop labels idxs acc st = (Continue (acc ++ picked), st).
Proof.
  induction 1 as [|idx l idxs picked [Hidx Hl] _ IH]; intros acc st.
  - cbn. by rewrite app_nil_r.
  - cbn [selectLabelsLoop]. unfold mbind, M_bind, bind, index.
    assert ((idx <? 0) = false) as -> by lia. rewrite Hl.
    rewrite IH. by rewrite <- app_assoc.
Qed.

Lemma createIssue_created
    w c repository project template st file argv issueContent f'
    title description issue :
  created w c repository project template (files st) file argv issueContent f'
    title description issue ->
  createIssueFromTemplate w c repository project template st
  = ((Some issue, None),
     set_files (delete file f')
       (emit (EvRemove file)
          (emit (EvCreateIssue (Project_ID project) title description)
             (afterEdit st argv f')))).
Proof.
  intros (Hsession & Hdiff & Hne & Hone & Hsplit & Hcreate & Hremove).
  rewrite (createIssue_submits _ _ _ _ _ _ _ _ _ _ Hsession _ _ Hdiff Hne Hone Hsplit).
  cbn zeta. rewrite Hcreate. unfold os_Remove. rewrite Hremove.
  cbn [files emit afterEdit].
  destruct Hsession as (_ & _ & _ & _ & _ & _ & Hrd). by rewrite Hrd.
Qed.

(** A run of [main] in which the issue is created: what it returns and what
    it leaves. *)
Lemma main_run
    w client repo project st template file argv issueContent f'
    title description issue selectedMilestone selectedLabels :
  selects w client project st template ->
  created w client repo project template (files st) file argv issueContent f'
    title description issue ->
  milestoneSelected w (getIssueMilestones client project).1 selectedMilestone ->
  labelsSelected w (getIssueLabels client project).1 selectedLabels ->
  (main w client repo project st).1
  = match UpdateIssue (gitlab client) (Project_ID project) (Issue_IID issue)
            (updatePayload selectedLabels selectedMilestone) with
    | Some e => Fatalf "could not add labels/milestones to issue: %s" [OErr e]
    | None => Continue tt
    end
  /\ createCalls (trace (main w client repo project st).2)
     = createCalls (trace st) ++ [(Project_ID project, title, description)]
  /\ updateCalls (trace (main w client repo project st).2)
     = updateCalls (trace st)
       ++ [(Project_ID project, Issue_IID issue,
            updatePayload selectedLabels selectedMilestone)]
  /\ removeCalls (trace (main w client repo project st).2)
     = removeCalls (trace st) ++ [file]
  /\ files (main w client repo project st).2 = delete file f'.
Proof.
  intros (templates & idx & Hget & Hfind & Hidx & Hlook) Hcreated Hms Hls.
  assert (Hcreate : forall st_c, files st_c = files st ->
            createIssueFromTemplate w client repo project template st_c
            = ((Some issue, None),
               set_files (delete file f')
                 (emit (EvRemove file)
                    (emit (EvCreateIssue (Project_ID project) title description)
                       (afterEdit st_c argv f'))))).
  { intros st_c Hfiles. apply (createIssue_created _ _ _ _ _ _ _ _ issueContent).
    by rewrite Hfiles. }
  unfold_main. rewrite Hget, Hfind.
  assert (Hneg : (idx <? 0) = false) by lia.
  destruct (getIssueLabels client project) as [labels lerr].
  destruct (getIssueMilestones client project) as [milestones merr].
  cbn [fst] in Hms, Hls.
  destruct milestones as [|m0 ms]; destruct labels as [|l0 ls];
    cbn [milestoneSelected labelsSelected] in Hms, Hls;
    try destruct Hms as (mi & me & Hfm & Hmi & Hm);
    try destruct Hls as (idxs & le & picked & Hfl & Hpicks & ->);
    try subst selectedMilestone; try subst selectedLabels;
    destruct merr as [em|]; destruct lerr as [el|];
    destruct (length templates =? 0)%nat;
    cbn -[setIssueLabelsMilestones selectLabelsLoop createIssueFromTemplate];
    rewrite Hneg, Hlook;
    cbn -[setIssueLabelsMilestones selectLabelsLoop createIssueFromTemplate];
    rewrite Hcreate by reflexivity;
    cbn -[setIssueLabelsMilestones selectLabelsLoop createIssueFromTemplate];
    try (cbn in Hfm; rewrite Hfm;
         assert ((mi <? 0) = false) as -> by lia; rewrite Hm);
    try (cbn in Hfl; rewrite Hfl; rewrite (selectLabelsLoop_picks _ _ _ Hpicks));
    cbn -[setIssueLabelsMilestones selectLabelsLoop createIssueFromTemplate];
    rewrite setIssueLabelsMilestones_eq;
    destruct (UpdateIssue _ _ _ _);
    cbn;
    rewrite ?createCalls_app, ?updateCalls_app, ?removeCalls_app; cbn;
    rewrite ?app_nil_r; done.
Qed.

Lemma typeIssue_created mAnswer lAnswer :
  created (demoWorld (demoEnv "" "" "nano -w") typeIssue None None mAnswer lAnswer)
    (demoClient demoMilestones None) (demoRepository None) demoProject BLANK
    (files demoSt) demoDraft demoArgv (typeIssue (prepopulated BLANK))
    (alter typeIssue demoDraft (draftFiles (files demoSt) demoDraft BLANK))
    "Title" (nl +:+ "Body text") demoIssue.
Proof.
  unfold created. split_and!.
  - apply demoWorld_edited.
  - discriminate.
  - discriminate.
  - unfold oneLine. cbn. rewrite !not_elem_of_cons. repeat split; try discriminate.
    apply not_elem_of_nil.
  - left. reflexivity.
  - reflexivity.
  - reflexivity.
Qed.

Lemma filter_sentinel (picked : list issueLabel) :
  filter (fun l => label_ID l <> 0) (noLabels ++ picked)
  = filter (fun l => label_ID l <> 0) picked.
Proof. unfold noLabels. cbn [app]. by rewrite filter_cons_False by (by intros H). Qed.

(** X14: a run of [main] in which the template is picked, the issue is
    created out of the edited draft and the update succeeds ends normally
    after exactly one creation call and exactly one update call for that
    issue, with the draft removed from disk. *)
Theorem main_success
    (w : World) (client : gitlabClient) (repo : Repository) (project : Project)
    (st : St) (template : issueTemplate) (file : string) (argv : list string)
    (issueContent : bytes) (f' : fs) (title description : string) (issue : Issue)
    (selectedMilestone : issueMilestone) (selectedLabels : list issueLabel) :
  selects w client project st template ->
  created w client repo project template (files st) file argv issueContent f'
    title description issue ->
  milestoneSelected w (getIssueMilestones client project).1 selectedMilestone ->
  labelsSelected w (getIssueLabels client project).1 selectedLabels ->
  UpdateIssue (gitlab client) (Project_ID project) (Issue_IID issue)
    (updatePayload selectedLabels selectedMilestone) = None ->
  (main w client repo project st).1 = Continue tt
  /\ createCalls (trace (main w client repo project st).2)
     = createCalls (trace st) ++ [(Project_ID project, title, description)]
  /\ updateCalls (trace (main w client repo project st).2)
     = updateCalls (trace st)
       ++ [(Project_ID project, Issue_IID issue,
            updatePayload selectedLabels selectedMilestone)]
  /\ files (main w client repo project st).2 !! file = None.
Proof.
  intros Hsel Hcreated Hms Hls Hupdate.
  destruct (main_run _ _ _ _ _ _ _ _ _ _ _ _ _ _ _ Hsel Hcreated Hms Hls)
    as (Hres & Hcreate & Hupd & _ & Hfiles).
  rewrite Hupdate in Hres. split_and!; try done.
  rewrite Hfiles. apply lookup_delete_eq.
Qed.

Lemma main_success_witness :
  (main (plainWorld typeIssue) (demoClient demoMilestones None) (demoRepository None)
     demoProject demoSt).1 = Continue tt
  /\ createCalls
       (trace (main (plainWorld typeIssue) (demoClient demoMilestones None)
                 (demoRepository None) demoProject demoSt).2)
     = createCalls (trace demoSt) ++ [(Project_ID demoProject, "Title", nl +:+ "Body text")]
  /\ updateCalls
       (trace (main (plainWorld typeIssue) (demoClient demoMilestones None)
                 (demoRepository None) demoProject demoSt).2)
     = updateCalls (trace demoSt)
       ++ [(Project_ID demoProject, Issue_IID demoIssue,
            updatePayload
              [ {| label_ID := 1; label_Name := "bug"; label_Description := "defect" |} ]
              {| milestone_ID := 8; milestone_Name := "v2.0" |})]
  /\ files (main (plainWorld typeIssue) (demoClient demoMilestones None)
              (demoRepository None) demoProject demoSt).2 !! demoDraft = None.
Proof.
  apply (main_success (plainWorld typeIssue) (demoClient demoMilestones None)
           (demoRepository None) demoProject demoSt BLANK demoDraft demoArgv
           (typeIssue (prepopulated BLANK))
           (alter typeIssue demoDraft (draftFiles (files demoSt) demoDraft BLANK))
           "Title" (nl +:+ "Body text") demoIssue).
  - apply demoWorld_selects.
  - apply typeIssue_created.
  - exists 1, None. split_and!; [reflexivity | lia | reflexivity].
  - exists [0], None,
      [ {| label_ID := 1; label_Name := "bug"; label_Description := "defect" |} ].
    split; [reflexivity | split; [|reflexivity]].
    unfold picks. constructor; [split; [lia | reflexivity] | constructor].
  - reflexivity.
Defined.

(** X15: when the update call fails after the issue was created, [main]
    ends the process with "could not add labels/milestones to issue"; nothing
    is undone: the creation call stays the only one made, and the draft is
    already removed from disk. *)
Theorem main_update_failure_leaves_issue
    (w : World) (client : gitlabClient) (repo : Repository) (project : Project)
    (st : St) (template : issueTemplate) (file : string) (argv : list string)
    (issueContent : bytes) (f' : fs) (title description : string) (issue : Issue)
    (selectedMilestone : issueMilestone) (selectedLabels : list issueLabel)
    (e : error) :
  selects w client project st template ->
  created w client repo project template (files st) file argv issueContent f'
    title description issue ->
  milestoneSelected w (getIssueMilestones client project).1 selectedMilestone ->
  labelsSelected w (getIssueLabels client project).1 selectedLabels ->
  UpdateIssue (gitlab client) (Project_ID project) (Issue_IID issue)
    (updatePayload selectedLabels selectedMilestone) = Some e ->
  (main w client repo project st).1
  = Fatalf "could not add labels/milestones to issue: %s" [OErr e]
  /\ createCalls (trace (main w client repo project st).2)
     = createCalls (trace st) ++ [(Project_ID project, title, description)]
  /\ files (main w client repo project st).2 !! file = None.
Proof.
  intros Hsel Hcreated Hms Hls Hupdate.
  destruct (main_run _ _ _ _ _ _ _ _ _ _ _ _ _ _ _ Hsel Hcreated Hms Hls)
    as (Hres & Hcreate & _ & _ & Hfiles).
  rewrite Hupdate in Hres. split_and!; try done.
  rewrite Hfiles. apply lookup_delete_eq.
Qed.

Lemma updateFails_selects :
  selects (plainWorld typeIssue) updateFailsClient demoProject demoSt BLANK.
Proof.
  eexists _, 0. split_and!; [vm_compute; reflexivity | reflexivity | lia | reflexivity].
Qed.

Lemma updateFails_created :
  created (plainWorld typeIssue) updateFailsClient (demoRepository None) demoProject
    BLANK (files demoSt) demoDraft demoArgv (typeIssue (prepopulated BLANK))
    (alter typeIssue demoDraft (draftFiles (files demoSt) demoDraft BLANK))
    "Title" (nl +:+ "Body text") demoIssue.
Proof.
  destruct (typeIssue_created (1, None) ([0], None))
    as (Hsession & Hdiff & Hne & Hone & Hsplit & _ & Hremove).
  unfold created. split_and!; try done.
Qed.

Lemma main_update_failure_leaves_issue_witness :
  (main (plainWorld typeIssue) updateFailsClient (demoRepository None) demoProject
     demoSt).1
  = Fatalf "could not add labels/milestones to issue: %s" [OErr (ErrExt "403 Forbidden")]
  /\ createCalls
       (trace (main (plainWorld typeIssue) updateFailsClient (demoRepository None)
                 demoProject demoSt).2)
     = createCalls (trace demoSt) ++ [(Project_ID demoProject, "Title", nl +:+ "Body text")]
  /\ files (main (plainWorld typeIssue) updateFailsClient (demoRepository None)
              demoProject demoSt).2 !! demoDraft = None.
Proof.
  apply (main_update_failure_leaves_issue (plainWorld typeIssue) updateFailsClient
           (demoRepository None) demoProject demoSt BLANK demoDraft demoArgv
           (typeIssue (prepopulated BLANK))
           (alter typeIssue demoDraft (draftFiles (files demoSt) demoDraft BLANK))
           "Title" (nl +:+ "Body text") demoIssue
           {| milestone_ID := 8; milestone_Name := "v2.0" |}
           [ {| label_ID := 1; label_Name := "bug"; label_Description := "defect" |} ]).
  - apply updateFails_selects.
  - apply updateFails_created.
  - exists 1, None. split_and!; [reflexivity | lia | reflexivity].
  - exists [0], None,
      [ {| label_ID := 1; label_Name := "bug"; label_Description := "defect" |} ].
    split; [reflexivity | split; [|reflexivity]].
    unfold picks. constructor; [split; [lia | reflexivity] | constructor].
  - reflexivity.
Defined.

(** X16: the options of the update call depend on the two prompts only
    through the indexes they return.  The labels added are the names of the
    labels at the returned indexes, in that order; the milestone id is the id
    of the milestone at the returned index.  The errors returned with the
    indexes change nothing: the sentinel that stands in after an error of the
    label prompt is left out of the call, and the error of the milestone
    prompt is not looked at. *)
Theorem main_update_payload
    (w : World) (client : gitlabClient) (repo : Repository) (project : Project)
    (st : St) (template : issueTemplate) (file : string) (argv : list string)
    (issueContent : bytes) (f' : fs) (title description : string) (issue : Issue)
    (l0 : issueLabel) (ls : list issueLabel) (idxs : list Z) (lerr : option error)
    (picked : list issueLabel)
    (milestones : list issueMilestone) (idx : Z) (merr : option error)
    (m : issueMilestone) :
  selects w client project st template ->
  created w client repo project template (files st) file argv issueContent f'
    title description issue ->
  (getIssueLabels client project).1 = l0 :: ls ->
  FindMulti_label w
    ((fun l => label_Name l +:+ ": " +:+ label_Description l) <$> l0 :: ls)
  = (idxs, lerr) ->
  picks (l0 :: ls) idxs picked ->
  (getIssueMilestones client project).1 = milestones ->
  Find_milestone w (milestone_Name <$> milestones) = (idx, merr) ->
  0 <= idx -> milestones !! Z.to_nat idx = Some m ->
  updateCalls (trace (main w client repo project st).2)
  = updateCalls (trace st)
    ++ [(Project_ID project, Issue_IID issue,
         {| AddLabels := label_Name <$> filter (fun l => label_ID l <> 0) picked;
            MilestoneID :=
              if decide (milestone_ID m = 0) then None else Some (milestone_ID m) |})].
Proof.
  intros Hsel Hcreated Hlabels Hfl Hpicks Hmilestones Hfm Hidx Hm.
  destruct (main_run w client repo project st template file argv issueContent f'
              title description issue m
              (match lerr with Some _ => noLabels | None => [] end ++ picked)
              Hsel Hcreated) as (_ & _ & Hupd & _).
  - rewrite Hmilestones. destruct milestones as [|m0 ms]; [done|].
    by exists idx, merr.
  - rewrite Hlabels. by exists idxs, lerr, picked.
  - rewrite Hupd. unfold updatePayload. do 4 f_equal.
    destruct lerr; [by rewrite filter_sentinel | done].
Qed.

Lemma main_update_payload_witness :
  updateCalls
    (trace (main cancelWorld (demoClient demoMilestones None) (demoRepository None)
              demoProject demoSt).2)
  = updateCalls (trace demoSt)
    ++ [(Project_ID demoProject, Issue_IID demoIssue,
         {| AddLabels := label_Name <$> filter (fun l => label_ID l <> 0) [];
            MilestoneID :=
              if decide (milestone_ID {| milestone_ID := 7; milestone_Name := "v1.0" |}
                         = 0)
              then None
              else Some (milestone_ID {| milestone_ID := 7; milestone_Name := "v1.0" |})
         |})].
Proof.
  apply (main_update_payload cancelWorld (demoClient demoMilestones None)
           (demoRepository None) demoProject demoSt BLANK demoDraft demoArgv
           (typeIssue (prepopulated BLANK))
           (alter typeIssue demoDraft (draftFiles (files demoSt) demoDraft BLANK))
           "Title" (nl +:+ "Body text") demoIssue
           {| label_ID := 1; label_Name := "bug"; label_Description := "defect" |}
           [ {| label_ID := 2; label_Name := "feature"; label_Description := "new" |} ]
           [] (Some ErrAbort) []
           [ {| milestone_ID := 7; milestone_Name := "v1.0" |};
             {| milestone_ID := 8; milestone_Name := "v2.0" |} ]
           0 (Some ErrAbort) {| milestone_ID := 7; milestone_Name := "v1.0" |}).
  - apply demoWorld_selects.
  - apply typeIssue_created.
  - reflexivity.
  - reflexivity.
  - constructor.
  - reflexivity.
  - reflexivity.
  - lia.
  - reflexivity.
Defined.

(** ** The prompts that are not shown *)

Lemma localTemplatesLoop_withPrompts w milestoneAnswer labelAnswer st dir files_ acc :
  localTemplatesLoop (withPrompts w milestoneAnswer labelAnswer) st dir files_ acc
  = localTemplatesLoop w st dir files_ acc.
Proof.
  revert acc. induction files_ as [|file rest IH]; intros acc; [reflexivity|].
  cbn [localTemplatesLoop]. rewrite IH.
  change (ioutil_ReadFile (withPrompts w milestoneAnswer labelAnswer)
            (filepath_Join (withPrompts w milestoneAnswer labelAnswer) [dir; file]) st)
    with (ioutil_ReadFile w (filepath_Join w [dir; file]) st).
  destruct (ioutil_ReadFile w _ st) as [b|e]; [|reflexivity].
  by rewrite IH.
Qed.

Lemma remoteTemplatesLoop_withPrompts w milestoneAnswer labelAnswer c project nodes acc :
  remoteTemplatesLoop (withPrompts w milestoneAnswer labelAnswer) c project nodes acc
  = remoteTemplatesLoop w c project nodes acc.
Proof.
  revert acc. induction nodes as [|node rest IH]; intros acc; [reflexivity|].
  cbn [remoteTemplatesLoop]. rewrite IH.
  destruct (GetFile _ _ _ _) as [file|e]; [|reflexivity].
  cbn [DecodeString withPrompts].
  destruct (DecodeString w _) as [content|e]; [|reflexivity].
  by rewrite IH.
Qed.

Lemma getIssueTemplates_withPrompts w milestoneAnswer labelAnswer c project st :
  getIssueTemplates (withPrompts w milestoneAnswer labelAnswer) c project st
  = getIssueTemplates w c project st.
Proof.
  unfold getIssueTemplates, getLocalIssueTemplates.
  cbn [homedir_Dir MkdirAll ReadDir filepath_Join withPrompts].
  destruct (homedir_Dir w) as [home|e]; [|reflexivity].
  destruct (MkdirAll w _) as [e|]; [reflexivity|].
  destruct (ReadDir w _) as [files_ rerr].
  rewrite localTemplatesLoop_withPrompts.
  destruct (localTemplatesLoop w _ _ _ _) as [locals [e|]]; [reflexivity|].
  destruct (ListTree _ _ _ _) as [nodes|e]; [|reflexivity].
  apply remoteTemplatesLoop_withPrompts.
Qed.

Lemma createIssueFromTemplate_withPrompts w milestoneAnswer labelAnswer c repo project template :
  createIssueFromTemplate (withPrompts w milestoneAnswer labelAnswer) c repo project template
  = createIssueFromTemplate w c repo project template.
Proof. reflexivity. Qed.

(** X17: when [getIssueLabels] and [getIssueMilestones] give empty lists
    (the project has no label and no active milestone, or their listing
    failed), the run of [main] does not depend on what the milestone prompt
    and the label prompt would answer: with any other answers the result and
    the final state are the same.  After the creation of the issue the update
    call is made all the same, with no label to add and no milestone id. *)
Theorem main_nothing_to_select
    (w : World) (client : gitlabClient) (repo : Repository) (project : Project)
    (st : St) (template : issueTemplate) (file : string) (argv : list string)
    (issueContent : bytes) (f' : fs) (title description : string) (issue : Issue) :
  selects w client project st template ->
  created w client repo project template (files st) file argv issueContent f'
    title description issue ->
  (getIssueLabels client project).1 = [] ->
  (getIssueMilestones client project).1 = [] ->
  (forall milestoneAnswer labelAnswer,
     main (withPrompts w milestoneAnswer labelAnswer) client repo project st
     = main w client repo project st)
  /\ updateCalls (trace (main w client repo project st).2)
     = updateCalls (trace st)
       ++ [(Project_ID project, Issue_IID issue,
            {| AddLabels := []; MilestoneID := None |})].
Proof.
  intros Hsel Hcreated Hlabels Hmilestones. split.
  - intros milestoneAnswer labelAnswer. clear Hsel Hcreated. unfold_main.
    rewrite getIssueTemplates_withPrompts.
    destruct (getIssueLabels client project) as [labels lerr].
    destruct (getIssueMilestones client project) as [milestones merr].
    cbn [fst] in Hlabels, Hmilestones. subst labels milestones.
    reflexivity.
  - destruct (main_run w client repo project st template file argv issueContent f'
                title description issue noMilestone noLabels Hsel Hcreated)
      as (_ & _ & Hupd & _).
    + by rewrite Hmilestones.
    + by rewrite Hlabels.
    + by rewrite Hupd.
Qed.

Lemma main_nothing_to_select_witness :
  (forall milestoneAnswer labelAnswer,
     main (withPrompts (plainWorld typeIssue) milestoneAnswer labelAnswer) bareClient
       (demoRepository None) demoProject demoSt
     = main (plainWorld typeIssue) bareClient (demoRepository None) demoProject demoSt)
  /\ updateCalls
       (trace (main (plainWorld typeIssue) bareClient (demoRepository None)
                 demoProject demoSt).2)
     = updateCalls (trace demoSt)
       ++ [(Project_ID demoProject, Issue_IID demoIssue,
            {| AddLabels := []; MilestoneID := None |})].
Proof.
  apply (main_nothing_to_select (plainWorld typeIssue) bareClient
           (demoRepository None) demoProject demoSt BLANK demoDraft demoArgv
           (typeIssue (prepopulated BLANK))
           (alter typeIssue demoDraft (draftFiles (files demoSt) demoDraft BLANK))
           "Title" (nl +:+ "Body text") demoIssue).
  - eexists _, 0.
    split_and!; [vm_compute; reflexivity | reflexivity | lia | reflexivity].
  - destruct (typeIssue_created (1, None) ([0], None))
      as (Hsession & Hdiff & Hne & Hone & Hsplit & _ & Hremove).
    unfold created. split_and!; try done.
  - reflexivity.
  - reflexivity.
Defined.

(** X18: when the templates cannot be collected, or the user leaves the
    template prompt without choosing, [main] ends the process at once with
    the matching message.  The regular files and their contents are then as
    they were at the start, so no draft was written; no removal was
    attempted, no command was run, and no issue was created or updated.
    Directories are not part of the file state: on the template directory,
    which [os.MkdirAll] may have created while the local templates were
    collected, nothing is said. *)
Theorem main_ends_before_editing
    (w : World) (client : gitlabClient) (repo : Repository) (project : Project)
    (st : St) (message : string) (e : error) :
  ((getIssueTemplates w client project st).2 = Some e
   /\ message = "Failed to get issue templates for project: %s")
  \/ ((getIssueTemplates w client project st).2 = None
      /\ (Find_template w
            (template_Name <$> (getIssueTemplates w client project st).1)).2 = Some e
      /\ message = "Failed to select template: %s") ->
  (main w client repo project st).1 = Fatalf message [OErr e]
  /\ files (main w client repo project st).2 = files st
  /\ removeCalls (trace (main w client repo project st).2) = removeCalls (trace st)
  /\ execCalls (trace (main w client repo project st).2) = execCalls (trace st)
  /\ createCalls (trace (main w client repo project st).2) = createCalls (trace st)
  /\ updateCalls (trace (main w client repo project st).2) = updateCalls (trace st).
Proof.
  unfold_main.
  destruct (getIssueTemplates w client project st) as [templates terr].
  cbn [fst snd].
  intros [[-> ->]|(-> & Hfind & ->)]; [done|].
  destruct (Find_template w _) as [idx ferr]. cbn [snd] in Hfind. subst ferr.
  destruct (length templates =? 0)%nat; cbn; [|done].
  rewrite removeCalls_app, execCalls_app, createCalls_app, updateCalls_app. cbn.
  by rewrite !app_nil_r.
Qed.

Lemma main_ends_before_editing_witness :
  (main noTemplateWorld (demoClient demoMilestones None) (demoRepository None)
     demoProject demoSt).1 = Fatalf "Failed to select template: %s" [OErr ErrAbort]
  /\ files (main noTemplateWorld (demoClient demoMilestones None) (demoRepository None)
              demoProject demoSt).2 = files demoSt
  /\ removeCalls
       (trace (main noTemplateWorld (demoClient demoMilestones None)
                 (demoRepository None) demoProject demoSt).2)
     = removeCalls (trace demoSt)
  /\ execCalls
       (trace (main noTemplateWorld (demoClient demoMilestones None)
                 (demoRepository None) demoProject demoSt).2)
     = execCalls (trace demoSt)
  /\ createCalls
       (trace (main noTemplateWorld (demoClient demoMilestones None)
                 (demoRepository None) demoProject demoSt).2)
     = createCalls (trace demoSt)
  /\ updateCalls
       (trace (main noTemplateWorld (demoClient demoMilestones None)
                 (demoRepository None) demoProject demoSt).2)
     = updateCalls (trace demoSt).
Proof.
  apply (main_ends_before_editing noTemplateWorld (demoClient demoMilestones None)
           (demoRepository None) demoProject demoSt).
  right. split_and!; reflexivity.
Defined.

(** X19: when the user leaves the draft as it was written, [main] ends the
    process with "could not create issue" around "content of issue has not
    been changed"; no issue is created or updated, and the draft stays on
    disk with its content. *)
Theorem main_unchanged_draft_is_fatal
    (w : World) (client : gitlabClient) (repo : Repository) (project : Project)
    (st : St) (template : issueTemplate) (file : string) (argv : list string)
    (f' : fs) :
  selects w client project st template ->
  edited w repo (draftPattern project template) template (files st)
    file argv (prepopulated template) f' ->
  (main w client repo project st).1
  = Fatalf "could not create issue: %s"
      [OErr (Errorf "content of issue has not been changed" [])]
  /\ createCalls (trace (main w client repo project st).2) = createCalls (trace st)
  /\ updateCalls (trace (main w client repo project st).2) = updateCalls (trace st)
  /\ files (main w client repo project st).2 !! file = Some (prepopulated template).
Proof.
  intros Hsel Hsession.
  destruct (main_create_error w client repo project st template Hsel)
    as (st_c & Hfiles & Hcalls & Hupd & Hfatal).
  rewrite <- Hfiles in Hsession.
  rewrite (Hfatal _ _ _
             (createIssue_unchanged _ _ _ _ _ _ _ _ _ _ Hsession eq_refl)).
  cbn [fst snd afterEdit trace files].
  rewrite createCalls_app, updateCalls_app, Hcalls, Hupd. cbn.
  rewrite !app_nil_r. split_and!; try done.
  by destruct Hsession as (_ & _ & _ & _ & _ & _ & Hrd).
Qed.

Lemma main_unchanged_draft_is_fatal_witness :
  (main (plainWorld leaveUnchanged) (demoClient demoMilestones None)
     (demoRepository None) demoProject demoSt).1
  = Fatalf "could not create issue: %s"
      [OErr (Errorf "content of issue has not been changed" [])]
  /\ createCalls
       (trace (main (plainWorld leaveUnchanged) (demoClient demoMilestones None)
                 (demoRepository None) demoProject demoSt).2)
     = createCalls (trace demoSt)
  /\ updateCalls
       (trace (main (plainWorld leaveUnchanged) (demoClient demoMilestones None)
                 (demoRepository None) demoProject demoSt).2)
     = updateCalls (trace demoSt)
  /\ files (main (plainWorld leaveUnchanged) (demoClient demoMilestones None)
              (demoRepository None) demoProject demoSt).2 !! demoDraft
     = Some (prepopulated BLANK).
Proof.
  apply (main_unchanged_draft_is_fatal (plainWorld leaveUnchanged)
           (demoClient demoMilestones None) (demoRepository None) demoProject demoSt
           BLANK demoDraft demoArgv
           (alter leaveUnchanged demoDraft (draftFiles (files demoSt) demoDraft BLANK))).
  - apply demoWorld_selects.
  - apply (demo_edited leaveUnchanged).
Defined.

(** ** More on the local templates *)




(** X22: a directory whose entries are [<stem>.md], each readable, gives
    exactly the templates named ["<stem> [local]"], in the order of the
    listing, whatever the stems are (a stem may be empty or end in [.md]
    itself: the extension is cut once). *)
Theorem local_template_names
    (w : World) (st : St) (home : string) (stems : list string)
    (listingError : option error) :
  homedir_Dir w = Ok home ->
  MkdirAll w (templateDir w home) = None ->
  ReadDir w (templateDir w home)
  = ((fun stem => stem +:+ ".md") <$> stems, listingError) ->
  (forall stem, stem ∈ stems ->
     exists b,
       ioutil_ReadFile w (filepath_Join w [templateDir w home; stem +:+ ".md"]) st
       = Ok b) ->
  (getLocalIssueTemplates w st).2 = None
  /\ template_Name <$> (getLocalIssueTemplates w st).1
     = (fun stem => stem +:+ " [local]") <$> stems.
Proof.
  intros Hhome Hmk Hls Hread.
  rewrite (getLocalIssueTemplates_listing w st home _ listingError Hhome Hmk Hls).
  rewrite localTemplatesLoop_ok.
  - split; [done|]. cbn [fst app].
    assert (Hall : filter isMarkdown ((fun stem => stem +:+ ".md") <$> stems)
                   = (fun stem => stem +:+ ".md") <$> stems).
    { clear. induction stems as [|stem stems IH]; [done|].
      rewrite fmap_cons, filter_cons_True by apply HasSuffix_append.
      by rewrite IH. }
    rewrite Hall, <- !list_fmap_compose.
    apply list_fmap_ext. intros _ stem _. cbn. by rewrite TrimSuffix_append.
  - intros name Hname _. apply list_elem_of_fmap in Hname as (stem & -> & Hstem).
    by apply Hread.
Qed.

Lemma local_template_names_witness :
  (getLocalIssueTemplates tidyWorld demoSt).2 = None
  /\ template_Name <$> (getLocalIssueTemplates tidyWorld demoSt).1
     = (fun stem => stem +:+ " [local]") <$> ["a"; "b"].
Proof.
  apply (local_template_names tidyWorld demoSt "/home/dev" ["a"; "b"] None).
  - reflexivity.
  - reflexivity.
  - reflexivity.
  - intros stem Hstem. rewrite !elem_of_cons in Hstem.
    destruct Hstem as [->|[->|Hstem]];
      [by eexists | by eexists | by apply elem_of_nil in Hstem].
Defined.

(** ** Witnesses for the life of the draft file *)

Lemma draft_kept_on_failure_witness :
  is_Some
    (files (createIssueFromTemplate (plainWorld leaveUnchanged)
              (demoClient demoMilestones None) (demoRepository None) demoProject
              BLANK demoSt).2 !! demoDraft).
Proof.
  apply (draft_kept_on_failure (plainWorld leaveUnchanged)
           (demoClient demoMilestones None) (demoRepository None) demoProject BLANK
           demoSt demoDraft).
  - reflexivity.
  - intros argv f [b Hb]. unfold plainWorld, demoWorld. cbn [Run fst].
    destruct (last argv) as [name|]; [|by eexists].
    rewrite lookup_alter. destruct (decide (name = demoDraft)) as [->|]; [|by eexists].
    rewrite Hb. by eexists.
  - by eexists.
Defined.

Lemma MainGo_draft_always_removed_witness :
  files (MainGo.createIssueFromTemplate (plainWorld typeIssue)
           (demoClient demoMilestones None) (demoRepository None) demoProject
           BLANK demoSt).2 !! "/tmp/570542pre-submit.md"
  = None.
Proof.
  apply (MainGo_draft_always_removed (plainWorld typeIssue)
           (demoClient demoMilestones None) (demoRepository None) demoProject BLANK
           demoSt "/tmp/570542pre-submit.md");
    reflexivity.
Defined.

(** ** The whole program without a repository *)

(** X27: started in a directory that has no repository at or above it, the
    program ends with "Error finding git repo in working directory" around
    the chain of "no git repository in" errors, for every recursion bound
    above the depth of the directory; nothing is logged, run, created or
    written before. *)
Theorem mainProgram_without_repository
    (h : Locating) (w : World) (st : St) (cwd : string) (k depth : nat) :
  filepath_Abs h "." = Ok cwd ->
  (forall i, (i < k)%nat -> ancestor h i cwd <> "/") ->
  ancestor h k cwd = "/" ->
  (forall i, (i <= k)%nat -> notARepository h (ancestor h i cwd)) ->
  (k < depth)%nat ->
  mainProgram h w depth st
  = Some (Fatalf
            "Error finding git repo in working directory: %s. Please specify project"
            [OErr (noRepositoryError h k cwd)],
          st).
Proof.
  intros Habs Habove Hroot Hnone Hdepth.
  unfold mainProgram, mainLocate. rewrite Habs.
  by rewrite (findRepo_root_aux h k cwd depth Habove Hroot Hnone Hdepth).
Qed.

Lemma mainProgram_without_repository_witness :
  mainProgram (demoLocating None) (plainWorld typeIssue) 9 demoSt
  = Some (Fatalf
            "Error finding git repo in working directory: %s. Please specify project"
            [OErr (noRepositoryError (demoLocating None) 5 "/home/dev/src/tool/cmd")],
          demoSt).
Proof.
  apply (mainProgram_without_repository (demoLocating None) (plainWorld typeIssue)
           demoSt "/home/dev/src/tool/cmd" 5 9).
  - reflexivity.
  - intros i Hi.
    destruct i as [|[|[|[|[|i]]]]]; [discriminate.. | lia].
  - reflexivity.
  - intros i Hi. by eexists.
  - lia.
Defined.

Lemma getIssueTemplates_reported_failures_witness :
  is_Some (getIssueTemplates (plainWorld typeIssue) (demoClient demoMilestones None)
             demoProject demoStMissing).2.
Proof.
  destruct (getIssueTemplates_reported_failures (plainWorld typeIssue)
              (demoClient demoMilestones None) demoProject demoStMissing)
    as (_ & _ & Hread & _ & _).
  apply (Hread "/home/dev" ["a.md"; "notes.txt"; "b.md"] None "b.md"
           (ErrExt "open /home/dev/.config/gitlab/issue_templates/b.md: no such file or directory")).
  - reflexivity.
  - reflexivity.
  - reflexivity.
  - rewrite !elem_of_cons. tauto.
  - reflexivity.
  - reflexivity.
Defined.
